(** * Verification model of [create_instagram_agent.py]

    Shallow embedding of the article extractor ([scrape_article]), the angle
    history store ([load_history], [save_history]), the response normalizer
    in [generate_instagram_post], the [.env] fallback loader,
    [get_api_key] and the whole run of [main].

    Python [str] values are modelled as Rocq strings whose characters are the
    code points below 256 (Latin-1); Python dicts as association lists in
    insertion order; JSON values as the inductive [json].  The network, the
    HTML parser and the generative model are external: their results are
    inputs of the model (a [doc] of BeautifulSoup query results, the response
    text of the model). *)

From Stdlib Require Import String Ascii List Bool Arith NArith Lia.
Import ListNotations.
Open Scope list_scope.
Open Scope string_scope.
Set Warnings "-abstract-large-number,-register-all".

(* ------------------------------------------------------------------ *)
(** ** Python string primitives *)

Module PyStr.

(** [str.isspace] on the code points below 256. *)
Definition is_space (c : ascii) : bool :=
  let n := nat_of_ascii c in
  (((9 <=? n) && (n <=? 13)) || ((28 <=? n) && (n <=? 32))
   || (n =? 133) || (n =? 160))%nat.

(** [s.lstrip()] *)
Fixpoint lstrip (s : string) : string :=
  match s with
  | EmptyString => EmptyString
  | String c s' => if is_space c then lstrip s' else s
  end.

(** [s.rstrip()] *)
Fixpoint rstrip (s : string) : string :=
  match s with
  | EmptyString => EmptyString
  | String c s' =>
      let r := rstrip s' in
      if is_space c && (String.length r =? 0)%nat then EmptyString else String c r
  end.

(** [s.strip()] *)
Definition strip (s : string) : string := rstrip (lstrip s).

(** [pat in s] for strings: substring test ([String.prefix p s] says
    that [p] is a prefix of [s]). *)
Fixpoint contains (pat s : string) : bool :=
  prefix pat s ||
  match s with
  | EmptyString => false
  | String _ s' => contains pat s'
  end.

(** [s.replace(pat, rep)] for a non-empty [pat]: left-to-right scan
    replacing non-overlapping occurrences.  [fuel] bounds the scan by
    [length s]. *)
Fixpoint replace_aux (fuel : nat) (pat rep s : string) : string :=
  match fuel with
  | O => s
  | S fuel' =>
      match s with
      | EmptyString => EmptyString
      | String c s' =>
          if prefix pat s
          then rep ++ replace_aux fuel' pat rep
                        (substring (String.length pat) (String.length s) s)
          else String c (replace_aux fuel' pat rep s')
      end
  end.

(** [s.replace("", rep)]: [rep] before every character and at the end. *)
Fixpoint interleave (rep s : string) : string :=
  match s with
  | EmptyString => rep
  | String c s' => rep ++ String c (interleave rep s')
  end.

(** [s.replace(pat, rep)] *)
Definition replace (pat rep s : string) : string :=
  match pat with
  | EmptyString => interleave rep s
  | _ => replace_aux (String.length s) pat rep s
  end.

(** [s.startswith(p)] *)
Definition startswith (p s : string) : bool := prefix p s.

(** [s[:n]] *)
Definition take (n : nat) (s : string) : string := substring 0 n s.

(** [sep.join(l)] *)
Fixpoint join (sep : string) (l : list string) : string :=
  match l with
  | [] => EmptyString
  | [x] => x
  | x :: l' => x ++ sep ++ join sep l'
  end.

End PyStr.

(* ------------------------------------------------------------------ *)
(** ** JSON values and Python dicts *)

(** A value produced by [json.loads].  A number keeps its literal text:
    numbers are compared and printed by literal in this model, so [1],
    [1.0] and [true] are distinct here though equal in Python. *)
Inductive json : Type :=
| JNull
| JBool (b : bool)
| JNum (lit : string)
| JStr (s : string)
| JArr (l : list json)
| JObj (d : list (string * json)).

(** Python [==] on JSON values, except that numbers are compared by
    literal and objects by key order (a Python dict ignores the order). *)
Fixpoint json_eqb (a b : json) : bool :=
  match a, b with
  | JNull, JNull => true
  | JBool x, JBool y => Bool.eqb x y
  | JNum x, JNum y => String.eqb x y
  | JStr x, JStr y => String.eqb x y
  | JArr l1, JArr l2 =>
      (fix go (l1 l2 : list json) : bool :=
         match l1, l2 with
         | [], [] => true
         | x :: r1, y :: r2 => json_eqb x y && go r1 r2
         | _, _ => false
         end) l1 l2
  | JObj d1, JObj d2 =>
      (fix go (d1 d2 : list (string * json)) : bool :=
         match d1, d2 with
         | [], [] => true
         | (k1, x) :: r1, (k2, y) :: r2 =>
             String.eqb k1 k2 && json_eqb x y && go r1 r2
         | _, _ => false
         end) d1 d2
  | _, _ => false
  end.

(** Python truthiness [bool(v)].  A number literal is falsy when its
    mantissa has only the characters [-], [0] and [.]; a literal that
    underflows to [0.0] (such as [1e-400]) is truthy here, falsy in
    Python. *)
Fixpoint zero_mantissa (lit : string) : bool :=
  match lit with
  | EmptyString => true
  | String c s =>
      if (c =? "e")%char || (c =? "E")%char then true
      else ((c =? "-")%char || (c =? "0")%char || (c =? ".")%char)
           && zero_mantissa s
  end.

Definition truthy (v : json) : bool :=
  match v with
  | JNull => false
  | JBool b => b
  | JNum lit => negb (zero_mantissa lit)
  | JStr s => negb (String.eqb s "")
  | JArr l => negb (List.length l =? 0)%nat
  | JObj d => negb (List.length d =? 0)%nat
  end.

Module Dict.

Definition t := list (string * json).

(** [d.get(k)] ([None] when absent). *)
Fixpoint get (k : string) (d : t) : option json :=
  match d with
  | [] => None
  | (k', v) :: d' => if String.eqb k k' then Some v else get k d'
  end.

(** [k in d] *)
Definition mem (k : string) (d : t) : bool :=
  match get k d with Some _ => true | None => false end.

(** [d[k] = v]: update in place, or append a new key at the end. *)
Fixpoint set (k : string) (v : json) (d : t) : t :=
  match d with
  | [] => [(k, v)]
  | (k', v') :: d' =>
      if String.eqb k k' then (k', v) :: d' else (k', v') :: set k v d'
  end.

End Dict.

(* ------------------------------------------------------------------ *)
(** ** Article extractor: [scrape_article] *)

Module Extract.

(** The results of the BeautifulSoup queries [scrape_article] makes on the
    fetched page.  A text-bearing element is given by the list of its
    descendant text nodes; an attribute lookup [tag.get('content')] by an
    [option string] ([None] when the attribute is missing). *)
Record doc : Type := mkDoc {
  d_title : option (option string);      (* soup.title, and its .string *)
  d_h1 : option (list string);           (* soup.find('h1') *)
  d_headers : list (list string);        (* soup.find_all(['h2','h3']) *)
  d_paragraphs : list (list string);     (* soup.find_all('p') *)
  d_og_image : option (option string);   (* meta property=og:image, content *)
  d_tw_image : option (option string);   (* meta name=twitter:image, content *)
  d_og_title : option (option string)    (* meta property=og:title, content *)
}.

(** The dict returned by [scrape_article]; [None] in a field is Python's
    [None].  [source_tags] is built through a [set], whose iteration order
    is not modelled; no claim of this development reads it. *)
Record article : Type := mkArticle {
  a_url : string;
  a_title : option string;
  a_structure : list string;
  a_content : string;
  a_image_url : option string
}.

(** [tag.get_text(strip=True)]: every text node stripped, empty ones
    dropped, the rest concatenated with the empty separator. *)
Definition get_text_strip (nodes : list string) : string :=
  String.concat "" (filter (fun t => negb (String.eqb t "")) (map PyStr.strip nodes)).

(** ["\n\n"] *)
Definition nl : string := String "010"%char EmptyString.
Definition blank_line_sep : string := nl ++ nl.

Definition content_cap : nat := 15000.

(** Python truthiness of a [str | None]. *)
Definition str_truthy (s : option string) : bool :=
  match s with
  | None => false
  | Some s => negb (String.eqb s "")
  end.

(** Lines 83-88 of the source: [<title>], overridden by the first [h1]. *)
Definition title_from_title_h1 (d : doc) : option string :=
  let title := match d_title d with
               | Some str => str
               | None => Some ""
               end in
  match d_h1 d with
  | Some nodes => Some (get_text_strip nodes)
  | None => if str_truthy title then title else Some "Untitled Article"
  end.

(** Lines 96-102: the paragraphs kept by the 40-character filter. *)
Definition kept_paragraphs (d : doc) : list string :=
  filter (fun text => (40 <? String.length text)%nat) (map get_text_strip (d_paragraphs d)).

Definition full_text (d : doc) : string :=
  PyStr.join blank_line_sep (kept_paragraphs d).

(** Lines 105-113: featured image. *)
Definition image_from_meta (d : doc) : option string :=
  match d_og_image d with
  | Some content => content
  | None => match d_tw_image d with
            | Some content => content
            | None => Some ""
            end
  end.

(** Lines 121-122: force HTTPS. *)
Definition force_https (image_url : option string) : option string :=
  match image_url with
  | Some s => if str_truthy (Some s) && PyStr.startswith "http://" s
              then Some (PyStr.replace "http://" "https://" s)
              else Some s
  | None => None
  end.

(** The body of the [try] block once the page is fetched and parsed. *)
Definition scrape_doc (url : string) (d : doc) : article :=
  let title := title_from_title_h1 d in
  let structure := map get_text_strip (d_headers d) in
  let image_url := image_from_meta d in
  let title := match d_og_title d with
               | Some content => content
               | None => title
               end in
  let image_url := force_https image_url in
  {| a_url := url;
     a_title := title;
     a_structure := structure;
     a_content := PyStr.take content_cap (full_text d);
     a_image_url := image_url |}.

(** [scrape_article(url)]: [fetched] is [None] when [requests.get] or
    [raise_for_status] raises, which the [except] turns into [None]. *)
Definition scrape_article (url : string) (fetched : option doc) : option article :=
  match fetched with
  | None => None
  | Some d => Some (scrape_doc url d)
  end.

End Extract.

(* ------------------------------------------------------------------ *)
(** ** [json.loads] and [json.dump(indent=2, ensure_ascii=False)] *)

Module Json.

Definition quote : ascii := "034"%char.
Definition backslash : ascii := "092"%char.

(** Outcome of a parser step: a value and the remaining text, a
    [JSONDecodeError], the [ValueError] of an integer literal longer than
    [sys.get_int_max_str_digits()] (4300 digits by default), or an input
    outside the model ([\u] escapes above U+00FF; nesting deeper than
    [max_depth]; or fuel exhausted: the fuel [length s + 1] given by
    [loads] always suffices since every nesting level consumes a
    character). *)
Inductive presult (A : Type) : Type :=
| POk (a : A) (rest : string)
| PErr
| PValueError
| POut.
Arguments POk {A} a rest.
Arguments PErr {A}.
Arguments PValueError {A}.
Arguments POut {A}.

Definition pmap {A B} (f : A -> B) (r : presult A) : presult B :=
  match r with
  | POk a rest => POk (f a) rest
  | PErr => PErr
  | PValueError => PValueError
  | POut => POut
  end.

(** The scanner enters a recursive call for every [[] and [{]; past the
    interpreter's recursion limit it raises [RecursionError], at a depth
    that depends on the interpreter and on the call stack (about 995 for
    the C scanner and 499 for the Python one under the default limit of
    1000, from a shallow stack).  The model covers nesting up to
    [max_depth] levels, where neither scanner raises, and leaves deeper
    texts outside ([POut]). *)
Definition max_depth : nat := 100.

(** The digit limit of [int(str)] ([sys.get_int_max_str_digits()]). *)
Definition int_max_str_digits : N := 4300.

(** [int(lit)] raises [ValueError]: a literal without fraction or
    exponent with more digits than the limit (the sign not counted). *)
Definition int_too_long (lit : string) : bool :=
  negb (PyStr.contains "." lit || PyStr.contains "e" lit || PyStr.contains "E" lit)
  && (int_max_str_digits <? N.of_nat (String.length (match lit with
                                                      | String "-" t => t
                                                      | _ => lit
                                                      end)))%N.

(** JSON whitespace: space, tab, newline, carriage return. *)
Definition is_ws (c : ascii) : bool :=
  let n := nat_of_ascii c in
  ((n =? 32) || (n =? 9) || (n =? 10) || (n =? 13))%nat.

Fixpoint skip_ws (s : string) : string :=
  match s with
  | String c s' => if is_ws c then skip_ws s' else s
  | EmptyString => EmptyString
  end.

Definition hexval (c : ascii) : option nat :=
  let n := nat_of_ascii c in
  if ((48 <=? n) && (n <=? 57))%nat then Some (n - 48)
  else if ((97 <=? n) && (n <=? 102))%nat then Some (n - 87)
  else if ((65 <=? n) && (n <=? 70))%nat then Some (n - 55)
  else None.

Definition hex4 (a b c d : ascii) : option nat :=
  match hexval a, hexval b, hexval c, hexval d with
  | Some x, Some y, Some z, Some w => Some (((x * 16 + y) * 16 + z) * 16 + w)
  | _, _, _, _ => None
  end.

(** The character a one-letter escape [\e] stands for. *)
Definition simple_escape (e : ascii) : option ascii :=
  match nat_of_ascii e with
  | 34 => Some quote
  | 92 => Some backslash
  | 47 => Some "/"%char
  | 98 => Some (ascii_of_nat 8)
  | 102 => Some (ascii_of_nat 12)
  | 110 => Some (ascii_of_nat 10)
  | 114 => Some (ascii_of_nat 13)
  | 116 => Some (ascii_of_nat 9)
  | _ => None
  end.

Definition pcons (c : ascii) (r : presult string) : presult string :=
  pmap (String c) r.

(** [scanstring] in strict mode, from just after the opening quote. *)
Fixpoint string_body (s : string) : presult string :=
  match s with
  | EmptyString => PErr
  | String c s' =>
      if (c =? quote)%char then POk EmptyString s'
      else if (c =? backslash)%char then
        match s' with
        | EmptyString => PErr
        | String e s'' =>
            if (e =? "u")%char then
              match s'' with
              | String h1 (String h2 (String h3 (String h4 r))) =>
                  match hex4 h1 h2 h3 h4 with
                  | Some n => if (n <? 256)%nat then pcons (ascii_of_nat n) (string_body r)
                              else POut
                  | None => PErr
                  end
              | _ => PErr
              end
            else match simple_escape e with
                 | Some x => pcons x (string_body s'')
                 | None => PErr
                 end
        end
      else if (nat_of_ascii c <? 32)%nat then PErr
      else pcons c (string_body s')
  end.

Definition is_digit (c : ascii) : bool :=
  let n := nat_of_ascii c in ((48 <=? n) && (n <=? 57))%nat.

(** The longest run of digits at the start of [s], and the rest. *)
Fixpoint digits (s : string) : string * string :=
  match s with
  | String c s' =>
      if is_digit c then let (d, r) := digits s' in (String c d, r) else (EmptyString, s)
  | EmptyString => (EmptyString, EmptyString)
  end.

(** Python's [NUMBER_RE]: an optional minus, [0] or a non-zero digit
    followed by digits, an optional fraction (a dot and at least one digit),
    an optional exponent ([e] or [E], an optional sign, at least one digit),
    matched at the start of [s]: the literal and the rest. *)
Definition lex_number (s : string) : option (string * string) :=
  let (sign, s1) := match s with
                    | String "-" s' => ("-", s')
                    | _ => (EmptyString, s)
                    end in
  let int_part :=
    match s1 with
    | String "0" r => Some ("0", r)
    | String c _ => if is_digit c then Some (digits s1) else None
    | EmptyString => None
    end in
  match int_part with
  | None => None
  | Some (ip, r1) =>
      let (fp, r2) :=
        match r1 with
        | String "." (String c r) =>
            if is_digit c then let (d, r') := digits (String c r) in ("." ++ d, r')
            else (EmptyString, r1)
        | _ => (EmptyString, r1)
        end in
      let (ep, r3) :=
        let exp_digits (pre : string) (t : string) :=
          match t with
          | String c _ => if is_digit c then let (d, r') := digits t in (pre ++ d, r')
                          else (EmptyString, r2)
          | EmptyString => (EmptyString, r2)
          end in
        match r2 with
        | String e r =>
            if (e =? "e")%char || (e =? "E")%char then
              match r with
              | String "+" t => exp_digits (String e "+") t
              | String "-" t => exp_digits (String e "-") t
              | _ => exp_digits (String e EmptyString) r
              end
            else (EmptyString, r2)
        | EmptyString => (EmptyString, r2)
        end in
      Some (sign ++ ip ++ fp ++ ep, r3)
  end.

Definition drop (n : nat) (s : string) : string := substring n (String.length s) s.

(** [dict(pairs)]: a repeated key keeps its first position and last value. *)
Definition dict_of_pairs (pairs : list (string * json)) : Dict.t :=
  fold_left (fun d kv => Dict.set (fst kv) (snd kv) d) pairs [].

(** [scan_once], [JSONObject] and [JSONArray]; [depth] is the number of
    further nesting levels the model covers. *)
Fixpoint value (fuel depth : nat) (s : string) {struct fuel} : presult json :=
  match fuel with
  | O => POut
  | S f =>
      match s with
      | EmptyString => PErr
      | String c s' =>
          if (c =? quote)%char then pmap JStr (string_body s')
          else if (c =? "{")%char then
            match depth with
            | O => POut
            | S dp =>
                match skip_ws s' with
                | String "}" r => POk (JObj []) r
                | String c' r => if (c' =? quote)%char
                                 then pmap (fun ps => JObj (dict_of_pairs ps)) (members f dp r)
                                 else PErr
                | EmptyString => PErr
                end
            end
          else if (c =? "[")%char then
            match depth with
            | O => POut
            | S dp =>
                match skip_ws s' with
                | String "]" r => POk (JArr []) r
                | r => pmap JArr (elements f dp r)
                end
            end
          else if prefix "null" s then POk JNull (drop 4 s)
          else if prefix "true" s then POk (JBool true) (drop 4 s)
          else if prefix "false" s then POk (JBool false) (drop 5 s)
          else match lex_number s with
               | Some (lit, r) => if int_too_long lit then PValueError else POk (JNum lit) r
               | None =>
                   if prefix "NaN" s then POk (JNum "NaN") (drop 3 s)
                   else if prefix "Infinity" s then POk (JNum "Infinity") (drop 8 s)
                   else if prefix "-Infinity" s then POk (JNum "-Infinity") (drop 9 s)
                   else PErr
               end
      end
  end
(** Members of an object, from just after the opening quote of a key. *)
with members (fuel depth : nat) (s : string) {struct fuel}
  : presult (list (string * json)) :=
  match fuel with
  | O => POut
  | S f =>
      match string_body s with
      | POk key r =>
          match skip_ws r with
          | String ":" r' =>
              match value f depth (skip_ws r') with
              | POk v r'' =>
                  match skip_ws r'' with
                  | String "}" t => POk [(key, v)] t
                  | String "," t =>
                      match skip_ws t with
                      | String c t' =>
                          if (c =? quote)%char then pmap (cons (key, v)) (members f depth t')
                          else PErr
                      | EmptyString => PErr
                      end
                  | _ => PErr
                  end
              | PErr => PErr
              | PValueError => PValueError
              | POut => POut
              end
          | _ => PErr
          end
      | PErr => PErr
      | PValueError => PValueError
      | POut => POut
      end
  end
(** Elements of a non-empty array, from the first value. *)
with elements (fuel depth : nat) (s : string) {struct fuel} : presult (list json) :=
  match fuel with
  | O => POut
  | S f =>
      match value f depth s with
      | POk v r =>
          match skip_ws r with
          | String "]" t => POk [v] t
          | String "," t => pmap (cons v) (elements f depth (skip_ws t))
          | _ => PErr
          end
      | PErr => PErr
      | PValueError => PValueError
      | POut => POut
      end
  end.

(** [json.loads(s)]: leading whitespace, one value, trailing whitespace. *)
Definition loads (s : string) : presult json :=
  match value (String.length s + 1) max_depth (skip_ws s) with
  | POk v r => match skip_ws r with
               | EmptyString => POk v EmptyString
               | _ => PErr
               end
  | PErr => PErr
  | PValueError => PValueError
  | POut => POut
  end.

(** [py_encode_basestring] (the encoder used with [ensure_ascii=False]):
    quote, backslash and the control characters are escaped, every other
    character is written as is. *)
Definition hexdigit (n : nat) : ascii :=
  if (n <? 10)%nat then ascii_of_nat (48 + n) else ascii_of_nat (87 + n).

Definition escape_char (c : ascii) : string :=
  match nat_of_ascii c with
  | 34 => String backslash (String quote EmptyString)
  | 92 => String backslash (String backslash EmptyString)
  | 8 => String backslash "b"
  | 12 => String backslash "f"
  | 10 => String backslash "n"
  | 13 => String backslash "r"
  | 9 => String backslash "t"
  | n => if (n <? 32)%nat
         then String backslash ("u00" ++ String (hexdigit (n / 16))
                                  (String (hexdigit (n mod 16)) EmptyString))
         else String c EmptyString
  end.

Fixpoint escape (s : string) : string :=
  match s with
  | EmptyString => EmptyString
  | String c s' => escape_char c ++ escape s'
  end.

Definition encode_str (s : string) : string :=
  String quote (escape s ++ String quote EmptyString).

(** ["\n" + "  " * level] *)
Fixpoint indent (level : nat) : string :=
  match level with
  | O => EmptyString
  | S l => "  " ++ indent l
  end.

Definition newline_indent (level : nat) : string :=
  String "010"%char (indent level).

(** [_iterencode] with [indent=2]: item separator [","], key separator
    [": "], a new line and the indentation before every item and before
    the closing bracket; empty containers as [[]] and [{}].  A number is
    written as its literal (Python re-renders it from its value). *)
Fixpoint dump (level : nat) (v : json) {struct v} : string :=
  match v with
  | JNull => "null"
  | JBool true => "true"
  | JBool false => "false"
  | JNum lit => lit
  | JStr s => encode_str s
  | JArr [] => "[]"
  | JArr l =>
      "[" ++ newline_indent (S level)
      ++ PyStr.join ("," ++ newline_indent (S level)) (map (dump (S level)) l)
      ++ newline_indent level ++ "]"
  | JObj [] => "{}"
  | JObj d =>
      "{" ++ newline_indent (S level)
      ++ PyStr.join ("," ++ newline_indent (S level))
           (map (fun '(k, x) => encode_str k ++ ": " ++ dump (S level) x) d)
      ++ newline_indent level ++ "}"
  end.

(** [json.dump(v, f, indent=2, ensure_ascii=False)]: the text written. *)
Definition dumps (v : json) : string := dump 0 v.

(** Nesting depth of a value: the containers on the longest path from the
    root.  [_iterencode] recurses once per level and, like the scanner,
    raises [RecursionError] somewhere past [max_depth]. *)
Fixpoint nesting (v : json) : nat :=
  match v with
  | JArr l =>
      S ((fix go (l : list json) : nat :=
            match l with
            | [] => 0
            | x :: l' => Nat.max (nesting x) (go l')
            end) l)
  | JObj d =>
      S ((fix go (d : list (string * json)) : nat :=
            match d with
            | [] => 0
            | (_, x) :: d' => Nat.max (nesting x) (go d')
            end) d)
  | _ => 0
  end.

End Json.

(* ------------------------------------------------------------------ *)
(** ** Angle history store: [load_history] and [save_history] *)

Module History.

(** The history file [instagram_post_history.json] as the process sees it:
    missing; present but [open] raises (permissions, a directory); present
    but its bytes are not UTF-8; or present with the decoded text. *)
Inductive file_state : Type :=
| FMissing
| FUnreadable
| FUndecodable
| FText (text : string).

Record fs : Type := mkFs {
  fs_file : file_state;
  fs_writable : bool   (* [open(HISTORY_FILE, 'w')] succeeds *)
}.

Inductive exn : Type :=
| OSError
| UnicodeDecodeError
| ValueError.

(** Result of [load_history()]: a returned value, an exception that
    escapes, or text outside the model (see [Json.POut]). *)
Inductive outcome : Type :=
| Returned (v : json)
| Raised (e : exn)
| Unmodelled.

(** [load_history]: only [json.JSONDecodeError] is caught; the
    [ValueError] of an overlong integer literal is not one. *)
Definition load_history (st : fs) : outcome :=
  match fs_file st with
  | FMissing => Returned (JObj [])
  | FUnreadable => Raised OSError
  | FUndecodable => Raised UnicodeDecodeError
  | FText text =>
      match Json.loads text with
      | Json.POk v _ => Returned v
      | Json.PErr => Returned (JObj [])
      | Json.PValueError => Raised ValueError
      | Json.POut => Unmodelled
      end
  end.

(** [save_history]: the new file state and whether the warning was
    printed.  A failing [open] leaves the file as it was. *)
Definition save_history (history : json) (st : fs) : fs * bool :=
  if fs_writable st
  then ({| fs_file := FText (Json.dumps history); fs_writable := true |}, false)
  else (st, true).

End History.

(* ------------------------------------------------------------------ *)
(** ** Caption generator: [generate_instagram_post] after the model call *)

Module Generate.

(** Lines 157-159: the URL locale markers. *)
Definition target_lang (url : string) : string :=
  if PyStr.contains "en-gb" url || PyStr.contains "/en/" url
     || PyStr.contains "-en-" url
  then "en" else "sv".

(** Lines 210-213: caption-shape resolution.  [data.get('instagram_post',
    data)] falls back to the top level only when the key is absent. *)
Definition resolve_caption (data : Dict.t) : Dict.t :=
  if Dict.mem "post_text" data then data
  else
    let content_source :=
      match Dict.get "instagram_post" data with
      | Some v => v
      | None => JObj data
      end in
    match content_source with
    | JObj cs =>
        match Dict.get "caption_text" cs with
        | Some caption => Dict.set "post_text" caption data
        | None => data
        end
    | _ => data
    end.

Definition garbage : list string := ["Caption Text:"; "CAPTION:"; "**"].

(** Lines 217-230 on a [str] caption. *)
Definition clean_text (url : string) (text : string) : string :=
  let clean := fold_left (fun c g => PyStr.replace g "" c) garbage text in
  let clean := if PyStr.contains url clean then PyStr.replace url "" clean
               else clean in
  PyStr.strip clean.

(** Lines 209-235 on the value [json.loads(response.text)]; [None] is the
    [except Exception] path.  A non-dict [data] raises at [in], [.get] or
    indexing; a non-[str] [post_text] raises at [.replace]. *)
Definition normalize (url : string) (data : json) : option json :=
  match data with
  | JObj d =>
      let d := resolve_caption d in
      match Dict.get "post_text" d with
      | None => Some (JObj d)
      | Some (JStr text) =>
          let d := Dict.set "post_text" (JStr (clean_text url text)) d in
          Some (JObj (Dict.set "language" (JStr (target_lang url)) d))
      | Some _ => None
      end
  | _ => None
  end.

(** [generate_instagram_post(article_data, ...)]: [parsed] is [None] when
    the model call raises or its text is not JSON. *)
Definition generate_instagram_post (article_data : Extract.article)
    (parsed : option json) : option json :=
  match parsed with
  | None => None
  | Some data => normalize (Extract.a_url article_data) data
  end.

End Generate.

(* ------------------------------------------------------------------ *)
(** ** [main] after generation: refine, then record the angle *)

Module Main.

Definition get_truthy (k : string) (d : Dict.t) : bool :=
  match Dict.get k d with
  | Some v => truthy v
  | None => false
  end.

(** A Python [str | None] as a JSON value. *)
Definition of_pystr (s : option string) : json :=
  match s with
  | Some s => JStr s
  | None => JNull
  end.

(** Lines 275-282. *)
Definition refine (args_url : string) (data : Extract.article) (result : Dict.t)
  : Dict.t :=
  let r := if get_truthy "article_url" result then result
           else Dict.set "article_url" (JStr args_url) result in
  let r := if negb (get_truthy "image_url" r)
              || match Dict.get "image_url" r with
                 | Some v => json_eqb v (JStr "")
                 | None => false
                 end
           then Dict.set "image_url" (of_pystr (Extract.a_image_url data)) r
           else r in
  let r := if get_truthy "title" r then r
           else Dict.set "title" (of_pystr (Extract.a_title data)) r in
  r.

(** Lines 290-293: [new_angle]. *)
Definition angle_of (result : Dict.t) : json :=
  let post_data :=
    match Dict.get "instagram_post" result with
    | Some v => if truthy v then v else JObj result
    | None => JObj result
    end in
  match post_data with
  | JObj pd => match Dict.get "angle_description" pd with
               | Some a => a
               | None => JNull
               end
  | _ => JStr ""
  end.

(** Lines 295-301: the history after recording [new_angle] for [url], and
    whether [save_history] is called; [None] when the code raises (the
    history or its entry for [url] has a shape [in] or [.append] rejects). *)
Definition record_angle (url : string) (new_angle : json) (history : json)
  : option (json * bool) :=
  if negb (truthy new_angle) then Some (history, false)
  else
    match history with
    | JObj h =>
        let h := if Dict.mem url h then h else Dict.set url (JArr []) h in
        match Dict.get url h with
        | Some (JArr l) =>
            if existsb (json_eqb new_angle) l then Some (JObj h, false)
            else Some (JObj (Dict.set url (JArr (l ++ [new_angle])%list) h), true)
        | Some (JStr s) =>
            match new_angle with
            | JStr a => if PyStr.contains a s then Some (JObj h, false) else None
            | _ => None
            end
        | Some (JObj d) =>
            match new_angle with
            | JStr a => if Dict.mem a d then Some (JObj h, false) else None
            | _ => None
            end
        | _ => None
        end
    | _ => None
    end.

(** Lines 274-302, from the generated [result]: the printed result, the
    history and the file state after the optional [save_history]. *)
Definition main_tail (args_url : string) (data : Extract.article)
    (result : Dict.t) (history : json) (st : History.fs)
  : option (json * json * History.fs) :=
  let r := refine args_url data result in
  if String.eqb args_url "" then Some (JObj r, history, st)
  else
    match record_angle args_url (angle_of r) history with
    | None => None
    | Some (h, saved) =>
        Some (JObj r, h, if saved then fst (History.save_history h st) else st)
    end.

End Main.


(* ------------------------------------------------------------------ *)
(** ** Process environment and the [.env] fallback loader *)

Module Env.

(** [os.environ]: variable names to values. *)
Definition t : Type := list (string * string).

(** [os.getenv(k)] *)
Fixpoint get (k : string) (e : t) : option string :=
  match e with
  | [] => None
  | (k', v) :: e' => if String.eqb k k' then Some v else get k e'
  end.

Fixpoint set (k v : string) (e : t) : t :=
  match e with
  | [] => [(k, v)]
  | (k', v') :: e' => if String.eqb k k' then (k', v) :: e' else (k', v') :: set k v e'
  end.

Definition nul : string := String "000"%char EmptyString.

(** [os.environ[k] = v]: [putenv] refuses a NUL character in the name or
    the value ([ValueError]) and [setenv] an empty name ([OSError]);
    [None] is the raised exception. *)
Definition setitem (k v : string) (e : t) : option t :=
  if PyStr.contains nul k || PyStr.contains nul v || String.eqb k ""
  then None
  else Some (set k v e).

End Env.

Module DotEnv.

(** [s.lstrip(chars)], [s.rstrip(chars)], [s.strip(chars)]. *)
Fixpoint lstrip_chars (chars s : string) : string :=
  match s with
  | EmptyString => EmptyString
  | String c s' => if PyStr.contains (String c EmptyString) chars
                   then lstrip_chars chars s' else s
  end.

Fixpoint rstrip_chars (chars s : string) : string :=
  match s with
  | EmptyString => EmptyString
  | String c s' =>
      let r := rstrip_chars chars s' in
      if PyStr.contains (String c EmptyString) chars && (String.length r =? 0)%nat
      then EmptyString else String c r
  end.

Definition strip_chars (chars s : string) : string :=
  rstrip_chars chars (lstrip_chars chars s).

(** The characters line 21 strips from a value: the double and the
    single quote. *)
Definition quote_chars : string :=
  String "034"%char (String "039"%char EmptyString).

(** [s.split('=', 1)] *)
Fixpoint split_once (sep : ascii) (s : string) : list string :=
  match s with
  | EmptyString => [EmptyString]
  | String c s' =>
      if Ascii.eqb c sep then [EmptyString; s']
      else match split_once sep s' with
           | x :: r => String c x :: r
           | [] => [String c EmptyString]
           end
  end.

(** Line 20: [k, v = line.strip().split('=', 1)], and the value with its
    quotes stripped; [None] when the unpacking raises. *)
Definition pair_of_line (line : string) : option (string * string) :=
  match split_once "=" (PyStr.strip line) with
  | [k; v] => Some (k, strip_chars quote_chars v)
  | _ => None
  end.

(** Line 19: the lines the loader acts on. *)
Definition is_assignment (line : string) : bool :=
  PyStr.contains "=" line && negb (PyStr.startswith "#" line).

(** Lines 19-21 for one line of the file; [None] when an exception is
    raised. *)
Definition load_line (line : string) (e : Env.t) : option Env.t :=
  if is_assignment line then
    match pair_of_line line with
    | Some (k, v) => Env.setitem k v e
    | None => None
    end
  else Some e.

(** Lines 17-21: [for line in f], the lines as Python yields them. *)
Fixpoint load_lines (lines : list string) (e : Env.t) : option Env.t :=
  match lines with
  | [] => Some e
  | line :: lines' =>
      match load_line line e with
      | Some e' => load_lines lines' e'
      | None => None
      end
  end.

(** Lines 13-21, the [ImportError] branch (python-dotenv not installed):
    [dotenv_file] is [None] when [.env] does not exist, otherwise its
    lines.  [None] is an exception raised at import. *)
Definition fallback_load (dotenv_file : option (list string)) (e : Env.t)
  : option Env.t :=
  match dotenv_file with
  | None => Some e
  | Some lines => load_lines lines e
  end.

End DotEnv.

(** [get_api_key()] (lines 67-72). *)
Definition get_api_key (e : Env.t) : option string :=
  let key := Env.get "GEMINI_API_KEY" e in
  if Extract.str_truthy key then key else Env.get "GOOGLE_API_KEY" e.

(* ------------------------------------------------------------------ *)
(** ** The whole run of [main] *)

Module Run.

(** Lines 163-165 of [generate_instagram_post], which run before its
    [try]: the previous angles put in the prompt ([Some None]: no such
    block), or [None] when [in] or the indexing raises (a list or a
    string history containing the URL, a truthy number or boolean). *)
Definition history_angles (history : json) (url : string) : option (option json) :=
  if negb (truthy history) then Some None
  else
    match history with
    | JObj d =>
        match Dict.get url d with
        | Some v => if truthy v then Some (Some v) else Some None
        | None => Some None
        end
    | JArr l => if existsb (json_eqb (JStr url)) l then None else Some None
    | JStr s => if PyStr.contains url s then None else Some None
    | _ => None
    end.

(** The parsed command line. *)
Record args : Type := mkArgs {
  arg_url : string;
  arg_webhook : string;
  arg_dry_run : bool
}.

(** How a run ends: [sys.exit(1)]; an uncaught exception (with the JSON
    printed before it, if any); an input outside the model
    ([History.Unmodelled], or a result nested deeper than
    [Json.max_depth], which [json.dumps] may refuse); or the end of
    [main], with the printed JSON, the history file, and the webhook
    request sent (URL and payload). *)
Inductive run : Type :=
| Exit1 (st : History.fs)
| Crash (printed : option json) (st : History.fs)
| Outside
| Finished (printed : json) (st : History.fs) (posted : option (string * json)).

(** [main()] (lines 241-314).  The page fetch and the model call are
    external: [fetched] is the parsed page ([None] when the request
    fails) and [parsed] the model's reply as parsed by [json.loads]
    ([None] when the call raises or the text is not JSON).  The webhook's
    answer only selects a message. *)
Definition main (env : Env.t) (a : args) (fetched : option Extract.doc)
    (parsed : option json) (st : History.fs) : run :=
  if negb (Extract.str_truthy (get_api_key env)) then Exit1 st
  else
    match Extract.scrape_article (arg_url a) fetched with
    | None => Exit1 st
    | Some data =>
        match History.load_history st with
        | History.Raised _ => Crash None st
        | History.Unmodelled => Outside
        | History.Returned history =>
            match history_angles history (Extract.a_url data) with
            | None => Crash None st
            | Some _ =>
                match Generate.generate_instagram_post data parsed with
                | None => Exit1 st
                | Some result =>
                    if negb (truthy result) then Exit1 st
                    else
                      match result with
                      | JObj d =>
                          if (Json.max_depth <? Json.nesting (JObj (Main.refine (arg_url a) data d)))%nat
                          then Outside
                          else
                          match Main.main_tail (arg_url a) data d history st with
                          | None => Crash (Some (JObj (Main.refine (arg_url a) data d))) st
                          | Some (printed, _, st') =>
                              Finished printed st'
                                (if negb (String.eqb (arg_webhook a) "")
                                    && negb (arg_dry_run a)
                                 then Some (arg_webhook a, printed) else None)
                          end
                      | _ => Crash None st
                      end
                end
            end
        end
    end.

End Run.

(* ================================================================== *)
(** * Properties *)

(* ------------------------------------------------------------------ *)
(** ** String and dict lemmas *)

Lemma sapp_assoc (a b c : string) : (a ++ b) ++ c = a ++ (b ++ c).
Proof. induction a as [|x a IH]; simpl; [reflexivity | now rewrite IH]. Qed.

Lemma sapp_nil_r (a : string) : a ++ EmptyString = a.
Proof. induction a as [|x a IH]; simpl; [reflexivity | now rewrite IH]. Qed.

Lemma slen_app (a b : string) :
  String.length (a ++ b) = (String.length a + String.length b)%nat.
Proof. induction a as [|x a IH]; simpl; [reflexivity | now rewrite IH]. Qed.

Lemma prefix_iff (p s : string) : prefix p s = true <-> exists b, s = p ++ b.
Proof.
  revert s; induction p as [|c p IH]; intros s; simpl.
  - split; [intros _; now exists s | now destruct s].
  - destruct s as [|c' s]; simpl.
    + split; [discriminate | intros [b Hb]; discriminate].
    + destruct (ascii_dec c c') as [->|Hne].
      * rewrite IH; split; intros [b Hb]; exists b; congruence.
      * split; [discriminate | intros [b Hb]; congruence].
Qed.

Lemma contains_iff (p s : string) :
  PyStr.contains p s = true <-> exists a b, s = a ++ p ++ b.
Proof.
  induction s as [|c s IH]; cbn [PyStr.contains].
  - rewrite orb_false_r, prefix_iff. split.
    + intros [b Hb]; exists EmptyString, b; exact Hb.
    + intros [a [b Hab]]; destruct a; [now exists b | discriminate].
  - rewrite orb_true_iff, prefix_iff, IH. split.
    + intros [[b Hb] | [a [b Hab]]].
      * now exists EmptyString, b.
      * exists (String c a), b; simpl; now rewrite Hab.
    + intros [a [b Hab]]. destruct a as [|c' a].
      * left; now exists b.
      * right; exists a, b; simpl in Hab; congruence.
Qed.

Lemma get_set_same (k : string) (v : json) (d : Dict.t) :
  Dict.get k (Dict.set k v d) = Some v.
Proof.
  induction d as [|[k' v'] d IH]; simpl.
  - now rewrite String.eqb_refl.
  - destruct (String.eqb k k') eqn:E; simpl; rewrite E; [reflexivity | exact IH].
Qed.

Lemma get_set_other (k k2 : string) (v : json) (d : Dict.t) :
  k2 <> k -> Dict.get k2 (Dict.set k v d) = Dict.get k2 d.
Proof.
  intros Hne; induction d as [|[k' v'] d IH]; simpl.
  - destruct (String.eqb k2 k) eqn:E; [apply String.eqb_eq in E; congruence | reflexivity].
  - destruct (String.eqb k k') eqn:E; simpl.
    + apply String.eqb_eq in E; subst k'.
      destruct (String.eqb k2 k) eqn:E2; [apply String.eqb_eq in E2; congruence | reflexivity].
    + destruct (String.eqb k2 k'); [reflexivity | exact IH].
Qed.

(* ------------------------------------------------------------------ *)
(** ** Language selection *)

(** The URL contains one of the locale markers. *)
Definition has_locale_marker (url : string) : Prop :=
  exists m, In m ["en-gb"; "/en/"; "-en-"] /\ exists a b, url = a ++ m ++ b.

(** C9: the target language is ["en"] exactly for the URLs containing one
    of the markers ["en-gb"], ["/en/"], ["-en-"], and ["sv"] for all other
    URLs. *)
Theorem target_lang_markers (url : string) :
  (Generate.target_lang url = "en" <-> has_locale_marker url) /\
  (~ has_locale_marker url -> Generate.target_lang url = "sv").
Proof.
  assert (Hm : PyStr.contains "en-gb" url || PyStr.contains "/en/" url
               || PyStr.contains "-en-" url = true <-> has_locale_marker url).
  { unfold has_locale_marker. rewrite !orb_true_iff, !contains_iff. split.
    - intros [[H | H] | H]; eexists; split; [| exact H | | exact H | | exact H];
        simpl; auto.
    - intros [m [Hin H]]. simpl in Hin.
      destruct Hin as [<- | [<- | [<- | []]]]; auto. }
  unfold Generate.target_lang. split.
  - rewrite <- Hm. destruct (_ || _ || _); split; congruence.
  - intros Hn. destruct (_ || _ || _) eqn:E; [exfalso; apply Hn, Hm; reflexivity | reflexivity].
Qed.

(* ------------------------------------------------------------------ *)
(** ** Title resolution *)

(** The spec's title order, read literally: the first non-empty of the
    og:title content, the first h1's text and the <title> text, else
    ["Untitled Article"]. *)
Definition title_by_spec (d : Extract.doc) : string :=
  let og := match Extract.d_og_title d with Some (Some c) => c | _ => "" end in
  let h1 := match Extract.d_h1 d with
            | Some nodes => Extract.get_text_strip nodes
            | None => ""
            end in
  let tt := match Extract.d_title d with Some (Some s) => s | _ => "" end in
  if negb (String.eqb og "") then og
  else if negb (String.eqb h1 "") then h1
  else if negb (String.eqb tt "") then tt
  else "Untitled Article".

(** A page with an empty og:title and an h1 reading "Hello". *)
Definition doc_empty_og : Extract.doc :=
  {| Extract.d_title := Some (Some "Page");
     Extract.d_h1 := Some ["Hello"];
     Extract.d_headers := [];
     Extract.d_paragraphs := [];
     Extract.d_og_image := None;
     Extract.d_tw_image := None;
     Extract.d_og_title := Some (Some "") |}.

(** C1 (counterexample): with an empty og:title content and a non-empty
    h1, the code resolves the title to the empty og:title content, not to
    the first non-empty candidate ("Hello"). *)
Lemma scrape_title_empty_og :
  Extract.a_title (Extract.scrape_doc "https://site.com/a" doc_empty_og) = Some ""
  /\ title_by_spec doc_empty_og = "Hello".
Proof. split; reflexivity. Qed.

(** C1 (amended): the title is the og:title meta's content whenever that
    meta tag is present (whatever the content, even empty or missing);
    otherwise the stripped text of the first h1 whenever an h1 is present
    (even empty); otherwise the <title> string when it is non-empty;
    otherwise "Untitled Article". *)
Theorem scrape_title_cascade (url : string) (d : Extract.doc) :
  let t := Extract.a_title (Extract.scrape_doc url d) in
  (forall c, Extract.d_og_title d = Some c -> t = c) /\
  (Extract.d_og_title d = None -> forall nodes, Extract.d_h1 d = Some nodes ->
     t = Some (Extract.get_text_strip nodes)) /\
  (Extract.d_og_title d = None -> Extract.d_h1 d = None ->
     forall s, Extract.d_title d = Some (Some s) -> s <> "" -> t = Some s) /\
  (Extract.d_og_title d = None -> Extract.d_h1 d = None ->
     (forall s, Extract.d_title d = Some (Some s) -> s = "") ->
     t = Some "Untitled Article").
Proof.
  unfold Extract.scrape_doc, Extract.title_from_title_h1; simpl.
  repeat split.
  - intros c ->; reflexivity.
  - intros -> nodes ->; reflexivity.
  - intros -> -> s -> Hs; simpl.
    destruct (String.eqb s "") eqn:E; [apply String.eqb_eq in E; congruence | reflexivity].
  - intros -> -> Hs. destruct (Extract.d_title d) as [[s|]|]; simpl; try reflexivity.
    now rewrite (Hs s eq_refl).
Qed.

(* ------------------------------------------------------------------ *)
(** ** Body content *)

(** The spec's paragraph filter as a relation: the kept texts are exactly
    those longer than 40 characters, in document order. *)
Inductive keeps_long : list string -> list string -> Prop :=
| keeps_nil : keeps_long [] []
| keeps_take t ts ks :
    40 < String.length t -> keeps_long ts ks -> keeps_long (t :: ts) (t :: ks)
| keeps_skip t ts ks :
    String.length t <= 40 -> keeps_long ts ks -> keeps_long (t :: ts) ks.

Lemma keeps_long_filter (ts : list string) :
  keeps_long ts (filter (fun text => (40 <? String.length text)%nat) ts).
Proof.
  induction ts as [|t ts IH]; simpl; [constructor |].
  destruct (40 <? String.length t)%nat eqn:E.
  - apply Nat.ltb_lt in E; now constructor.
  - apply Nat.ltb_ge in E; now constructor.
Qed.

Lemma take_length_le (n : nat) (s : string) :
  String.length (PyStr.take n s) <= n.
Proof.
  unfold PyStr.take; revert s; induction n as [|n IH]; intros s.
  - destruct s; simpl; lia.
  - destruct s as [|c s]; simpl; [lia |]. specialize (IH s); lia.
Qed.

(** C7: the assembled body is the get_text(strip=True) texts of the
    paragraphs longer than 40 characters, all of them and only them, in
    document order, joined by a blank line; the stored content is its
    first 15,000 characters and never longer than 15,000. *)
Theorem scrape_content_filter_cap (url : string) (d : Extract.doc) :
  exists kept,
    keeps_long (map Extract.get_text_strip (Extract.d_paragraphs d)) kept /\
    Extract.a_content (Extract.scrape_doc url d)
      = PyStr.take 15000 (PyStr.join Extract.blank_line_sep kept) /\
    String.length (Extract.a_content (Extract.scrape_doc url d)) <= 15000.
Proof.
  exists (Extract.kept_paragraphs d). split; [apply keeps_long_filter |].
  split; [reflexivity |]. apply take_length_le.
Qed.

(* ------------------------------------------------------------------ *)
(** ** Caption-shape resolution *)

Lemma resolve_caption_no_post_text (d : Dict.t) :
  Dict.get "post_text" (Generate.resolve_caption d) = None ->
  Generate.resolve_caption d = d.
Proof.
  unfold Generate.resolve_caption, Dict.mem.
  destruct (Dict.get "post_text" d) eqn:Ep; [reflexivity |].
  destruct (match Dict.get "instagram_post" d with Some v => v | None => JObj d end)
    as [| | | | |cs]; try reflexivity.
  destruct (Dict.get "caption_text" cs) eqn:Ec; [| reflexivity].
  now rewrite get_set_same.
Qed.

Lemma resolve_caption_other (d : Dict.t) (k : string) :
  k <> "post_text" -> Dict.get k (Generate.resolve_caption d) = Dict.get k d.
Proof.
  intros Hk. unfold Generate.resolve_caption.
  destruct (Dict.mem "post_text" d); [reflexivity |].
  destruct (match Dict.get "instagram_post" d with Some v => v | None => JObj d end)
    as [| | | | |cs]; try reflexivity.
  destruct (Dict.get "caption_text" cs); [now apply get_set_other | reflexivity].
Qed.

(** A response with an [instagram_post] object lacking [caption_text] and
    a top-level [caption_text]. *)
Definition resp_nested_without_caption : Dict.t :=
  [("instagram_post", JObj [("angle_description", JStr "a")]);
   ("caption_text", JStr "x")].

(** C2 (counterexample): a top-level [caption_text] is not used when an
    [instagram_post] key is present, even one without [caption_text]: the
    result has no [post_text]. *)
Lemma resolve_caption_top_level_ignored :
  Dict.mem "caption_text" resp_nested_without_caption = true /\
  Dict.mem "post_text" resp_nested_without_caption = false /\
  Dict.mem "post_text" (Generate.resolve_caption resp_nested_without_caption) = false.
Proof. repeat split; reflexivity. Qed.

(** C2 (amended): resolution is a total function of the object.  A
    top-level [post_text] is kept as is; otherwise, when [instagram_post] is
    present and is an object with [caption_text], [post_text] is set from
    it; when [instagram_post] is absent and a top-level [caption_text] is
    present, [post_text] is set from that; when [instagram_post] is present
    but is not an object with [caption_text], nothing changes.  No other
    key is touched. *)
Theorem resolve_caption_total (d : Dict.t) :
  (forall v, Dict.get "post_text" d = Some v -> Generate.resolve_caption d = d) /\
  (Dict.get "post_text" d = None -> forall cs c,
     Dict.get "instagram_post" d = Some (JObj cs) -> Dict.get "caption_text" cs = Some c ->
     Dict.get "post_text" (Generate.resolve_caption d) = Some c) /\
  (Dict.get "post_text" d = None -> Dict.get "instagram_post" d = None -> forall c,
     Dict.get "caption_text" d = Some c ->
     Dict.get "post_text" (Generate.resolve_caption d) = Some c) /\
  (Dict.get "post_text" d = None -> forall v, Dict.get "instagram_post" d = Some v ->
     (forall cs, v = JObj cs -> Dict.get "caption_text" cs = None) ->
     Generate.resolve_caption d = d) /\
  (forall k, k <> "post_text" ->
     Dict.get k (Generate.resolve_caption d) = Dict.get k d).
Proof.
  unfold Generate.resolve_caption, Dict.mem. repeat split.
  - intros v ->; reflexivity.
  - intros -> cs c -> ->. apply get_set_same.
  - intros -> -> c ->. apply get_set_same.
  - intros -> v -> Hv. destruct v as [| | | | |cs]; try reflexivity.
    now rewrite (Hv cs eq_refl).
  - intros k Hk. apply resolve_caption_other; exact Hk.
Qed.

(* ------------------------------------------------------------------ *)
(** ** Post-processing of the parsed response *)

(** C10 (counterexample): a response whose [post_text] is not a string has
    a [post_text] field, yet no result with [language] is produced: the
    [.replace] call raises and the function returns [None]. *)
Lemma normalize_non_string_post_text :
  Dict.mem "post_text" [("post_text", JNum "5")] = true /\
  Generate.normalize "https://site.com/a" (JObj [("post_text", JNum "5")]) = None.
Proof. split; reflexivity. Qed.

(** C10 (amended): a parsed response that is not a JSON object makes the
    function return [None].  For an object, after caption-shape resolution:
    without [post_text] the response is returned unchanged and without
    [language]; with a string [post_text] the cleaned text replaces it and
    [language] is attached, nothing else changing; with a non-string
    [post_text] the function returns [None]. *)
Theorem normalize_cases (url : string) (data : json) :
  ((forall d, data <> JObj d) -> Generate.normalize url data = None) /\
  (forall d, data = JObj d ->
     let d' := Generate.resolve_caption d in
     (Dict.get "post_text" d' = None ->
        Generate.normalize url data = Some data /\
        Dict.get "language" d = Dict.get "language" d') /\
     (forall text, Dict.get "post_text" d' = Some (JStr text) ->
        exists r, Generate.normalize url data = Some (JObj r) /\
          Dict.get "post_text" r = Some (JStr (Generate.clean_text url text)) /\
          Dict.get "language" r = Some (JStr (Generate.target_lang url)) /\
          (forall k, k <> "post_text" -> k <> "language" -> Dict.get k r = Dict.get k d')) /\
     (forall v, Dict.get "post_text" d' = Some v -> (forall text, v <> JStr text) ->
        Generate.normalize url data = None)).
Proof.
  split.
  - intros H. destruct data as [| | | | |d]; try reflexivity. now destruct (H d).
  - intros d -> d'. unfold Generate.normalize. fold d'.
    split; [| split].
    + intros Hp. rewrite Hp. unfold d' in *.
      rewrite (resolve_caption_no_post_text d Hp). now split.
    + intros text Hp. rewrite Hp. eexists; split; [reflexivity |].
      split; [rewrite get_set_other by discriminate; apply get_set_same |].
      split; [apply get_set_same |].
      intros k Hk1 Hk2. rewrite get_set_other by exact Hk2.
      now rewrite get_set_other by exact Hk1.
    + intros v Hp Hv. rewrite Hp.
      destruct v as [| | |t| |]; try reflexivity. now destruct (Hv t).
Qed.

(* ------------------------------------------------------------------ *)
(** ** Back-fill of the identity fields *)

Lemma get_truthy_nonempty (k s : string) (d : Dict.t) :
  Dict.get k d = Some (JStr s) -> s <> "" -> Main.get_truthy k d = true.
Proof.
  unfold Main.get_truthy. intros -> Hs; simpl.
  destruct (String.eqb s "") eqn:E; [apply String.eqb_eq in E; congruence | reflexivity].
Qed.

Lemma get_truthy_empty (k : string) (d : Dict.t) :
  Dict.get k d = None \/ Dict.get k d = Some (JStr "") -> Main.get_truthy k d = false.
Proof. unfold Main.get_truthy. now intros [-> | ->]. Qed.

Lemma get_truthy_set_other (k k2 : string) (v : json) (d : Dict.t) :
  k2 <> k -> Main.get_truthy k2 (Dict.set k v d) = Main.get_truthy k2 d.
Proof. intros H. unfold Main.get_truthy. now rewrite get_set_other. Qed.

Lemma get_if_set_other (b : bool) (k k2 : string) (v : json) (d : Dict.t) :
  k2 <> k -> Dict.get k2 (if b then d else Dict.set k v d) = Dict.get k2 d.
Proof. intros H; destruct b; [reflexivity | now apply get_set_other]. Qed.

Lemma get_if_set_other' (b : bool) (k k2 : string) (v : json) (d : Dict.t) :
  k2 <> k -> Dict.get k2 (if b then Dict.set k v d else d) = Dict.get k2 d.
Proof. intros H; destruct b; [now apply get_set_other | reflexivity]. Qed.

Lemma refine_article_url (url : string) (art : Extract.article) (result : Dict.t) :
  Dict.get "article_url" (Main.refine url art result) =
  if Main.get_truthy "article_url" result then Dict.get "article_url" result
  else Some (JStr url).
Proof.
  unfold Main.refine.
  rewrite get_if_set_other by discriminate.
  rewrite get_if_set_other' by discriminate.
  destruct (Main.get_truthy "article_url" result); [reflexivity | apply get_set_same].
Qed.

Lemma refine_image_url (url : string) (art : Extract.article) (result : Dict.t) :
  (forall s, Dict.get "image_url" result = Some (JStr s) -> s <> "" ->
     Dict.get "image_url" (Main.refine url art result) = Some (JStr s)) /\
  (Dict.get "image_url" result = None \/ Dict.get "image_url" result = Some (JStr "") ->
     Dict.get "image_url" (Main.refine url art result)
     = Some (Main.of_pystr (Extract.a_image_url art))).
Proof.
  unfold Main.refine.
  set (r1 := if Main.get_truthy "article_url" result then result
             else Dict.set "article_url" (JStr url) result).
  assert (Hr1 : Dict.get "image_url" r1 = Dict.get "image_url" result)
    by (apply get_if_set_other; discriminate).
  assert (Ht1 : Main.get_truthy "image_url" r1 = Main.get_truthy "image_url" result)
    by (unfold Main.get_truthy; now rewrite Hr1).
  rewrite get_if_set_other by discriminate. rewrite Ht1, Hr1. split.
  - intros s Hs Hne. rewrite (get_truthy_nonempty _ _ _ Hs Hne), Hs. simpl.
    destruct (String.eqb s "") eqn:E; [apply String.eqb_eq in E; congruence |].
    now rewrite Hr1.
  - intros H. rewrite (get_truthy_empty _ _ H). simpl. apply get_set_same.
Qed.

Lemma refine_title (url : string) (art : Extract.article) (result : Dict.t) :
  Dict.get "title" (Main.refine url art result) =
  if Main.get_truthy "title" result then Dict.get "title" result
  else Some (Main.of_pystr (Extract.a_title art)).
Proof.
  unfold Main.refine.
  set (r1 := if Main.get_truthy "article_url" result then result
             else Dict.set "article_url" (JStr url) result).
  match goal with |- context [Main.get_truthy "title" ?x] => set (r2 := x) end.
  assert (Hr2 : Dict.get "title" r2 = Dict.get "title" result).
  { unfold r2. rewrite get_if_set_other' by discriminate.
    apply get_if_set_other; discriminate. }
  assert (Ht2 : Main.get_truthy "title" r2 = Main.get_truthy "title" result)
    by (unfold Main.get_truthy; now rewrite Hr2).
  rewrite Ht2. destruct (Main.get_truthy "title" result); [exact Hr2 | apply get_set_same].
Qed.

(** C6: back-fill leaves [article_url], [image_url] and [title] unchanged
    when they already hold non-empty strings, and fills each one that is
    missing or empty from the extracted article record (the URL, image and
    title [scrape_article] returned for the run's URL). *)
Theorem refine_identity_fields (url : string) (d : Extract.doc) (result : Dict.t) :
  let art := Extract.scrape_doc url d in
  let r := Main.refine url art result in
  (forall k s, In k ["article_url"; "image_url"; "title"] ->
     Dict.get k result = Some (JStr s) -> s <> "" -> Dict.get k r = Some (JStr s)) /\
  (Dict.get "article_url" result = None \/ Dict.get "article_url" result = Some (JStr "") ->
     Dict.get "article_url" r = Some (JStr (Extract.a_url art))) /\
  (Dict.get "image_url" result = None \/ Dict.get "image_url" result = Some (JStr "") ->
     Dict.get "image_url" r = Some (Main.of_pystr (Extract.a_image_url art))) /\
  (Dict.get "title" result = None \/ Dict.get "title" result = Some (JStr "") ->
     Dict.get "title" r = Some (Main.of_pystr (Extract.a_title art))).
Proof.
  intros art r. split; [| split; [| split]].
  - intros k s Hk Hs Hne. simpl in Hk. unfold r.
    destruct Hk as [<- | [<- | [<- | []]]].
    + rewrite refine_article_url, (get_truthy_nonempty _ _ _ Hs Hne). exact Hs.
    + now apply (proj1 (refine_image_url url art result)).
    + rewrite refine_title, (get_truthy_nonempty _ _ _ Hs Hne). exact Hs.
  - intros H. unfold r. rewrite refine_article_url, (get_truthy_empty _ _ H).
    reflexivity.
  - apply (proj2 (refine_image_url url art result)).
  - intros H. unfold r. rewrite refine_title, (get_truthy_empty _ _ H). reflexivity.
Qed.

(* ------------------------------------------------------------------ *)
(** ** The caption scenario of the spec *)

(** A JSON string literal for a text without quotes, backslashes or
    control characters. *)
Definition quoted (s : string) : string :=
  String Json.quote (s ++ String Json.quote EmptyString).

Definition scenario_url : string := "https://site.com/a".

(** The model's response text
    [{"instagram_post": {"caption_text": "Hello https://site.com/a world",
    "angle_description": "health angle"}}]. *)
Definition scenario_response : string :=
  "{" ++ quoted "instagram_post" ++ ": {"
  ++ quoted "caption_text" ++ ": " ++ quoted "Hello https://site.com/a world" ++ ", "
  ++ quoted "angle_description" ++ ": " ++ quoted "health angle" ++ "}}".

Definition scenario_post : json :=
  JObj [("caption_text", JStr "Hello https://site.com/a world");
        ("angle_description", JStr "health angle")].

Definition scenario_parsed : json := JObj [("instagram_post", scenario_post)].

(** C4 (counterexample): the normalized caption keeps both spaces that
    surrounded the removed URL; [strip] only trims the ends, so the
    [post_text] is ["Hello  world"], not ["Hello world"]. *)
Lemma scenario_post_text_double_space :
  Json.loads scenario_response = Json.POk scenario_parsed "" /\
  Generate.normalize scenario_url scenario_parsed
  = Some (JObj [("instagram_post", scenario_post);
                ("post_text", JStr "Hello  world");
                ("language", JStr "sv")]) /\
  JStr "Hello  world" <> JStr "Hello world".
Proof. split; [vm_compute; reflexivity | split; [vm_compute; reflexivity | discriminate]]. Qed.

(** C4 (amended): for the response above and the article URL
    https://site.com/a (whatever the rest of the page), the URL is removed
    and the ends trimmed, giving [post_text] "Hello  world" (the two inner
    spaces stay) and language "sv"; [main] then records "health angle" for
    the URL on any history whose entry for it is missing or a list: the
    entry becomes the old list (or [[]]) with "health angle" appended
    unless it was already there, [save_history] is called exactly when it
    was appended, and the other entries are unchanged. *)
Theorem scenario_normalize_and_record (d : Extract.doc) (h : Dict.t) (st : History.fs)
    (Hh : Dict.get scenario_url h = None \/ exists l, Dict.get scenario_url h = Some (JArr l)) :
  let art := Extract.scrape_doc scenario_url d in
  let old := match Dict.get scenario_url h with Some (JArr l) => l | _ => [] end in
  let fresh := negb (existsb (json_eqb (JStr "health angle")) old) in
  Json.loads scenario_response = Json.POk scenario_parsed "" /\
  exists r out h',
    Generate.generate_instagram_post art (Some scenario_parsed) = Some (JObj r) /\
    Dict.get "post_text" r = Some (JStr "Hello  world") /\
    Dict.get "language" r = Some (JStr "sv") /\
    Main.main_tail scenario_url art r (JObj h) st
      = Some (out, JObj h', if fresh then fst (History.save_history (JObj h') st) else st) /\
    Dict.get scenario_url h'
      = Some (JArr (old ++ if fresh then [JStr "health angle"] else [])%list) /\
    (forall k, k <> scenario_url -> Dict.get k h' = Dict.get k h).
Proof.
  intros art old fresh. split; [vm_compute; reflexivity |].
  assert (Hg : exists r,
    Generate.generate_instagram_post art (Some scenario_parsed) = Some (JObj r) /\
    Dict.get "post_text" r = Some (JStr "Hello  world") /\
    Dict.get "language" r = Some (JStr "sv") /\
    Main.angle_of (Main.refine scenario_url art r) = JStr "health angle").
  { eexists. split; [vm_compute; reflexivity |].
    split; [reflexivity |]. split; [reflexivity |]. vm_compute; reflexivity. }
  destruct Hg as [r [Hgen [Hp [Hl Ha]]]].
  exists r, (JObj (Main.refine scenario_url art r)).
  unfold Main.main_tail. cbv zeta. rewrite Ha.
  change (String.eqb scenario_url "") with false. cbv beta iota.
  unfold Main.record_angle, Dict.mem.
  change (negb (truthy (JStr "health angle"))) with false. cbv beta iota.
  destruct Hh as [E | [l E]]; unfold fresh, old in *; rewrite E; cbv beta iota.
  - rewrite get_set_same. cbn [existsb negb app].
    exists (Dict.set scenario_url (JArr [JStr "health angle"]) (Dict.set scenario_url (JArr []) h)).
    do 4 (split; [assumption || reflexivity |]).
    split; [rewrite get_set_same; reflexivity |].
    intros k Hk. rewrite !get_set_other by exact Hk. reflexivity.
  - rewrite E. destruct (existsb (json_eqb (JStr "health angle")) l) eqn:Ex; cbn [negb].
    + exists h. do 4 (split; [assumption || reflexivity |]).
      split; [rewrite app_nil_r; exact E |]. reflexivity.
    + exists (Dict.set scenario_url (JArr (l ++ [JStr "health angle"])%list) h).
      do 4 (split; [assumption || reflexivity |]).
      split; [apply get_set_same |].
      intros k Hk. apply get_set_other, Hk.
Qed.

(** A history whose entry for the URL already lists another angle. *)
Definition scenario_history : Dict.t :=
  [(scenario_url, JArr [JStr "cost angle"]); ("https://site.com/b", JArr [])].

(** On that history "health angle" is appended after "cost angle". *)
Lemma scenario_normalize_and_record_witness :
  (Dict.get scenario_url scenario_history = None \/
   exists l, Dict.get scenario_url scenario_history = Some (JArr l)) /\
  exists r out h',
    Main.main_tail scenario_url (Extract.scrape_doc scenario_url doc_empty_og) r
      (JObj scenario_history) (History.mkFs History.FMissing true)
    = Some (out, JObj h', fst (History.save_history (JObj h') (History.mkFs History.FMissing true))) /\
    Dict.get scenario_url h' = Some (JArr [JStr "cost angle"; JStr "health angle"]).
Proof.
  assert (Hh : Dict.get scenario_url scenario_history = None \/
               exists l, Dict.get scenario_url scenario_history = Some (JArr l))
    by (right; eexists; reflexivity).
  split; [exact Hh |].
  destruct (proj2 (scenario_normalize_and_record doc_empty_og scenario_history
                     (History.mkFs History.FMissing true) Hh))
    as [r [out [h' [_ [_ [_ [Ht [Hg _]]]]]]]].
  exists r, out, h'. split; [exact Ht | exact Hg].
Defined.

(* ------------------------------------------------------------------ *)
(** ** Recording angles *)

(** Occurrences of the string [a] in an angle list. *)
Definition count_str (a : string) (l : list json) : nat :=
  List.length (filter (json_eqb (JStr a)) l).

(** Every entry of the history is a list with no string twice. *)
Definition entries_ok (d : Dict.t) : Prop :=
  forall k v, Dict.get k d = Some v ->
    exists l, v = JArr l /\ forall a, count_str a l <= 1.

Definition hist_inv (h : json) : Prop :=
  exists d, h = JObj d /\ entries_ok d.

Lemma json_eqb_str (a : string) (x : json) : json_eqb (JStr a) x = true <-> x = JStr a.
Proof.
  destruct x; simpl; split; try discriminate.
  - intros E; apply String.eqb_eq in E; now subst.
  - intros E; injection E as ->; apply String.eqb_refl.
Qed.

Lemma count_str_snoc (a : string) (l : list json) (x : json) :
  count_str a (l ++ [x]) = (count_str a l + if json_eqb (JStr a) x then 1 else 0)%nat.
Proof.
  unfold count_str. rewrite filter_app, length_app. cbn [filter].
  destruct (json_eqb (JStr a) x); reflexivity.
Qed.

Lemma count_str_absent (a : string) (l : list json) :
  existsb (json_eqb (JStr a)) l = false -> count_str a l = 0.
Proof.
  unfold count_str. induction l as [|x l IH]; cbn [existsb filter]; [reflexivity |].
  destruct (json_eqb (JStr a) x); [discriminate | exact IH].
Qed.

Lemma count_str_present (a : string) (l : list json) :
  existsb (json_eqb (JStr a)) l = true -> 1 <= count_str a l.
Proof.
  unfold count_str. induction l as [|x l IH]; cbn [existsb filter]; [discriminate |].
  destruct (json_eqb (JStr a) x); cbn [List.length orb]; [lia | exact IH].
Qed.

Lemma entries_ok_set (d : Dict.t) (url : string) (l : list json) :
  entries_ok d -> (forall a, count_str a l <= 1) ->
  entries_ok (Dict.set url (JArr l) d).
Proof.
  intros Hd Hl k v Hk. destruct (String.eqb_spec k url) as [-> | Hne].
  - rewrite get_set_same in Hk. injection Hk as <-. now exists l.
  - rewrite get_set_other in Hk by exact Hne. now apply Hd in Hk.
Qed.

(** Recording a truthy angle on a well-formed history: a string angle is
    in the URL's list afterwards and the history stays well formed. *)
Lemma record_truthy (url : string) (angle : json) (d : Dict.t) :
  entries_ok d -> truthy angle = true ->
  exists d' saved l,
    Main.record_angle url angle (JObj d) = Some (JObj d', saved) /\
    entries_ok d' /\ Dict.get url d' = Some (JArr l) /\
    (forall a, angle = JStr a -> existsb (json_eqb (JStr a)) l = true).
Proof.
  intros Hd Ht. unfold Main.record_angle. rewrite Ht. cbv beta iota zeta delta [negb].
  match goal with |- context [Dict.get url ?x] => set (d1 := x) end.
  assert (H1 : entries_ok d1 /\ exists l, Dict.get url d1 = Some (JArr l)
                                /\ forall a, count_str a l <= 1).
  { unfold d1, Dict.mem. destruct (Dict.get url d) as [v|] eqn:Ev.
    - split; [exact Hd |]. destruct (Hd url v Ev) as [l [-> Hl]]. now exists l.
    - split; [apply entries_ok_set; [exact Hd | intros a; unfold count_str; simpl; lia] |].
      exists []. split; [apply get_set_same | intros a; unfold count_str; simpl; lia]. }
  destruct H1 as [Hd1 [l [Hl Hcount]]]. rewrite Hl.
  destruct (existsb (json_eqb angle) l) eqn:Ex.
  - exists d1, false, l. split; [reflexivity |]. split; [exact Hd1 |].
    split; [exact Hl |]. intros a ->. exact Ex.
  - exists (Dict.set url (JArr (l ++ [angle])%list) d1), true, (l ++ [angle])%list.
    split; [reflexivity |]. split; [| split; [apply get_set_same |]].
    + apply entries_ok_set; [exact Hd1 |]. intros a. rewrite count_str_snoc.
      destruct (json_eqb (JStr a) angle) eqn:Ea.
      * apply json_eqb_str in Ea; subst angle. rewrite count_str_absent by exact Ex. lia.
      * specialize (Hcount a); lia.
    + intros a ->. rewrite existsb_app. simpl. rewrite String.eqb_refl.
      apply orb_true_r.
Qed.

(** Recording an angle already in the URL's list changes nothing. *)
Lemma record_present (url : string) (angle : json) (d : Dict.t) (l : list json) :
  truthy angle = true -> Dict.get url d = Some (JArr l) ->
  existsb (json_eqb angle) l = true ->
  Main.record_angle url angle (JObj d) = Some (JObj d, false).
Proof.
  intros Ht Hl Hx. unfold Main.record_angle, Dict.mem. rewrite Ht, Hl. simpl.
  rewrite Hl, Hx. reflexivity.
Qed.

(** C5 (counterexample): the empty angle string is never recorded (the
    [if new_angle:] guard), so recording it twice leaves no entry for the
    URL at all, not an entry containing it once. *)
Lemma record_empty_angle_skipped :
  Main.record_angle scenario_url (JStr "") (JObj []) = Some (JObj [], false) /\
  Dict.get scenario_url [] = None.
Proof. split; reflexivity. Qed.

(** C5 (amended): on a history whose entries are lists without a repeated
    string, recording any angle succeeds and keeps that property; recording
    the same non-empty angle string twice leaves it exactly once in the
    URL's list, the second recording changing nothing and not saving; the
    empty angle is never recorded. *)
Theorem record_angle_no_duplicates (url : string) (h : json) (Hinv : hist_inv h) :
  (forall angle, exists h' saved,
     Main.record_angle url angle h = Some (h', saved) /\ hist_inv h') /\
  (forall a, a <> "" -> exists h1 b1 d2 l,
     Main.record_angle url (JStr a) h = Some (h1, b1) /\
     Main.record_angle url (JStr a) h1 = Some (JObj d2, false) /\
     h1 = JObj d2 /\
     Dict.get url d2 = Some (JArr l) /\ count_str a l = 1) /\
  Main.record_angle url (JStr "") h = Some (h, false).
Proof.
  destruct Hinv as [d [-> Hd]]. split; [| split].
  - intros angle. destruct (truthy angle) eqn:Ht.
    + destruct (record_truthy url angle d Hd Ht) as [d' [saved [l [Hr [Hd' _]]]]].
      exists (JObj d'), saved. split; [exact Hr | now exists d'].
    + exists (JObj d), false. unfold Main.record_angle. rewrite Ht.
      split; [reflexivity | now exists d].
  - intros a Ha.
    assert (Ht : truthy (JStr a) = true).
    { simpl. destruct (String.eqb a "") eqn:E; [apply String.eqb_eq in E; congruence | reflexivity]. }
    destruct (record_truthy url (JStr a) d Hd Ht) as [d' [saved [l [Hr [Hd' [Hl Hx]]]]]].
    specialize (Hx a eq_refl).
    exists (JObj d'), saved, d', l. split; [exact Hr |].
    split; [exact (record_present url (JStr a) d' l Ht Hl Hx) |].
    split; [reflexivity |]. split; [exact Hl |].
    destruct (Hd' url (JArr l) Hl) as [l' [E Hle]]. injection E as <-.
    specialize (Hle a). pose proof (count_str_present a l Hx). lia.
  - reflexivity.
Qed.

(** A non-empty history: the URL already lists another angle, and a
    second URL lists the angle being recorded. *)
Definition dup_history : json :=
  JObj [(scenario_url, JArr [JStr "cost angle"]); ("https://site.com/b", JArr [JStr "health angle"])].

(** On that history "health angle" is appended to the URL's list and
    saved, and recording it a second time leaves it there once. *)
Lemma record_angle_no_duplicates_witness :
  hist_inv dup_history /\
  Main.record_angle scenario_url (JStr "health angle") dup_history
  = Some (JObj [(scenario_url, JArr [JStr "cost angle"; JStr "health angle"]);
                ("https://site.com/b", JArr [JStr "health angle"])], true) /\
  exists h1 b1 d2 l,
    Main.record_angle scenario_url (JStr "health angle") dup_history = Some (h1, b1) /\
    Main.record_angle scenario_url (JStr "health angle") h1 = Some (JObj d2, false) /\
    h1 = JObj d2 /\
    Dict.get scenario_url d2 = Some (JArr l) /\ count_str "health angle" l = 1.
Proof.
  assert (H : hist_inv dup_history).
  { eexists. split; [reflexivity |]. intros k v E. cbn [Dict.get] in E.
    destruct (String.eqb k scenario_url);
      [| destruct (String.eqb k "https://site.com/b"); [| discriminate]];
      injection E as <-; eexists; (split; [reflexivity |]); intros a;
      unfold count_str; cbn [filter json_eqb];
      repeat match goal with |- context [String.eqb ?x ?y] => destruct (String.eqb x y) end;
      cbn; lia. }
  split; [exact H |]. split; [vm_compute; reflexivity |].
  exact (proj1 (proj2 (record_angle_no_duplicates scenario_url dup_history H))
           "health angle" ltac:(discriminate)).
Defined.

(* ------------------------------------------------------------------ *)
(** ** Loading the history file *)

(** [n] copies of the digit 1. *)
Fixpoint ones (n : nat) : string :=
  match n with
  | O => EmptyString
  | S n' => String "1" (ones n')
  end.

(** C3 (counterexample): a history file holding the valid JSON text [[]]
    loads as a list, not as a mapping; a file that cannot be opened makes
    [load_history] raise [OSError]; and a file holding an integer of 4301
    digits makes it raise [ValueError]. *)
Lemma load_history_list_and_unreadable :
  History.load_history {| History.fs_file := History.FText "[]";
                          History.fs_writable := true |} = History.Returned (JArr []) /\
  History.load_history {| History.fs_file := History.FUnreadable;
                          History.fs_writable := true |} = History.Raised History.OSError /\
  History.load_history {| History.fs_file := History.FText (ones 4301);
                          History.fs_writable := true |} = History.Raised History.ValueError.
Proof. split; [reflexivity | split; [reflexivity | vm_compute; reflexivity]]. Qed.

(** C3: a missing file loads as the empty mapping; a file whose text is
    not valid JSON loads as the empty mapping without raising; a file
    whose text is valid JSON (nested at most [Json.max_depth] levels)
    loads as the parsed value, whatever its shape; a file that cannot be
    opened, whose bytes are not UTF-8, or whose JSON holds an integer
    literal over 4300 digits makes [load_history] raise, as only
    [JSONDecodeError] is caught. *)
Theorem load_history_cases (st : History.fs) :
  (History.fs_file st = History.FMissing -> History.load_history st = History.Returned (JObj [])) /\
  (forall text, History.fs_file st = History.FText text -> Json.loads text = Json.PErr ->
     History.load_history st = History.Returned (JObj [])) /\
  (forall text v rest, History.fs_file st = History.FText text ->
     Json.loads text = Json.POk v rest -> History.load_history st = History.Returned v) /\
  (History.fs_file st = History.FUnreadable -> History.load_history st = History.Raised History.OSError) /\
  (History.fs_file st = History.FUndecodable ->
     History.load_history st = History.Raised History.UnicodeDecodeError) /\
  (forall text, History.fs_file st = History.FText text -> Json.loads text = Json.PValueError ->
     History.load_history st = History.Raised History.ValueError).
Proof.
  unfold History.load_history. repeat split.
  - intros ->; reflexivity.
  - intros text -> ->; reflexivity.
  - intros text v rest -> ->; reflexivity.
  - intros ->; reflexivity.
  - intros ->; reflexivity.
  - intros text -> ->; reflexivity.
Qed.

(* ------------------------------------------------------------------ *)
(** ** Round trip of [save_history] and [load_history] *)

(** Each character's escape is read back by [scanstring] as that
    character (checked for all 256 characters). *)
Lemma string_body_escape_char (c : ascii) (r : string) :
  Json.string_body (Json.escape_char c ++ r) = Json.pcons c (Json.string_body r).
Proof.
  destruct c as [b0 b1 b2 b3 b4 b5 b6 b7].
  destruct b0, b1, b2, b3, b4, b5, b6, b7; reflexivity.
Qed.

Lemma string_body_escape (s rest : string) :
  Json.string_body (Json.escape s ++ String Json.quote rest) = Json.POk s rest.
Proof.
  induction s as [|c s IH]; [reflexivity |].
  cbn [Json.escape]. rewrite sapp_assoc, string_body_escape_char, IH. reflexivity.
Qed.

Lemma encode_str_app (s rest : string) :
  Json.encode_str s ++ rest = String Json.quote (Json.escape s ++ String Json.quote rest).
Proof. unfold Json.encode_str. simpl. now rewrite sapp_assoc. Qed.

Lemma value_encode_str (f dp : nat) (s rest : string) :
  Json.value (S f) dp (Json.encode_str s ++ rest) = Json.POk (JStr s) rest.
Proof. rewrite encode_str_app. simpl. now rewrite string_body_escape. Qed.

Lemma skip_ws_indent (n : nat) (s : string) :
  Json.skip_ws (Json.indent n ++ s) = Json.skip_ws s.
Proof. induction n as [|n IH]; [reflexivity | exact IH]. Qed.

Lemma skip_ws_newline_indent (n : nat) (s : string) :
  Json.skip_ws (Json.newline_indent n ++ s) = Json.skip_ws s.
Proof. apply skip_ws_indent. Qed.

Lemma skip_ws_encode_str (s rest : string) :
  Json.skip_ws (Json.encode_str s ++ rest) = Json.encode_str s ++ rest.
Proof. now rewrite encode_str_app. Qed.

Definition item_sep (n : nat) : string := "," ++ Json.newline_indent n.

Lemma join_cons_cons (sep x y : string) (l : list string) :
  PyStr.join sep (x :: y :: l) = x ++ sep ++ PyStr.join sep (y :: l).
Proof. reflexivity. Qed.

Lemma skip_ws_item_sep (n : nat) (s : string) :
  Json.skip_ws (item_sep n ++ s) = String "," (Json.newline_indent n ++ s).
Proof. reflexivity. Qed.

Lemma skip_ws_join_encode (sep y : string) (l : list string) (z : string) :
  Json.skip_ws (PyStr.join sep (map Json.encode_str (y :: l)) ++ z)
  = PyStr.join sep (map Json.encode_str (y :: l)) ++ z.
Proof.
  destruct l as [|y' l].
  - apply skip_ws_encode_str.
  - cbn [map]. rewrite join_cons_cons, !sapp_assoc. apply skip_ws_encode_str.
Qed.

Lemma elements_S (f dp : nat) (s : string) :
  Json.elements (S f) dp s =
  match Json.value f dp s with
  | Json.POk v r =>
      match Json.skip_ws r with
      | String "]" t => Json.POk [v] t
      | String "," t => Json.pmap (cons v) (Json.elements f dp (Json.skip_ws t))
      | _ => Json.PErr
      end
  | Json.PErr => Json.PErr
  | Json.PValueError => Json.PValueError
  | Json.POut => Json.POut
  end.
Proof. reflexivity. Qed.

(** The elements of a non-empty array of strings, as [dump] writes them,
    are read back by [JSONArray]. *)
Lemma elements_strs (n m : nat) (l : list string) :
  forall (x rest : string) (f dp : nat), (List.length l + 2 <= f)%nat ->
  Json.elements f dp (PyStr.join (item_sep n) (map Json.encode_str (x :: l))
                   ++ Json.newline_indent m ++ "]" ++ rest)
  = Json.POk (map JStr (x :: l)) rest.
Proof.
  induction l as [|y l IH]; intros x rest f dp Hf;
    (destruct f as [|[|f]]; [simpl in Hf; lia | simpl in Hf; lia |]).
  - cbn [map PyStr.join]. rewrite elements_S, value_encode_str, skip_ws_newline_indent.
    reflexivity.
  - cbn [map]. rewrite join_cons_cons, elements_S, !sapp_assoc, value_encode_str.
    rewrite skip_ws_item_sep. cbv beta iota.
    rewrite skip_ws_newline_indent.
    change (Json.encode_str y :: map Json.encode_str l) with (map Json.encode_str (y :: l)).
    rewrite skip_ws_join_encode, IH by (simpl in Hf |- *; lia).
    reflexivity.
Qed.

Lemma dump_arr_strs (n : nat) (x : string) (l : list string) :
  Json.dump n (JArr (map JStr (x :: l))) =
  "[" ++ Json.newline_indent (S n)
  ++ PyStr.join (item_sep (S n)) (map Json.encode_str (x :: l))
  ++ Json.newline_indent n ++ "]".
Proof. cbn [Json.dump map]. rewrite map_map. reflexivity. Qed.

Lemma join_encode_head (sep x : string) (l : list string) (z : string) :
  exists w, PyStr.join sep (map Json.encode_str (x :: l)) ++ z = String Json.quote w.
Proof.
  destruct l as [|y l]; cbn [map].
  - cbn [PyStr.join]. rewrite encode_str_app. eexists; reflexivity.
  - rewrite join_cons_cons, sapp_assoc, encode_str_app. eexists; reflexivity.
Qed.

Lemma value_bracket (f dp : nat) (s : string) :
  Json.value (S f) (S dp) ("[" ++ s) =
  match Json.skip_ws s with
  | String "]" r => Json.POk (JArr []) r
  | r => Json.pmap JArr (Json.elements f dp r)
  end.
Proof. reflexivity. Qed.

(** An array of strings, as [dump] writes it, is read back. *)
Lemma value_arr_strs (n : nat) (l : list string) (rest : string) (f dp : nat) :
  (List.length l + 3 <= f)%nat ->
  Json.value f (S dp) (Json.dump n (JArr (map JStr l)) ++ rest) = Json.POk (JArr (map JStr l)) rest.
Proof.
  intros Hf. destruct f as [|f]; [lia |].
  destruct l as [|x l]; [reflexivity |].
  rewrite dump_arr_strs, !sapp_assoc, value_bracket, skip_ws_newline_indent,
    skip_ws_join_encode.
  destruct (join_encode_head (item_sep (S n)) x l (Json.newline_indent n ++ "]" ++ rest))
    as [w Ew].
  rewrite Ew.
  change (Json.pmap JArr (Json.elements f dp (String Json.quote w)) = Json.POk (JArr (map JStr (x :: l))) rest).
  rewrite <- Ew, elements_strs by (simpl in Hf |- *; lia).
  reflexivity.
Qed.

(** A history as the in-memory mapping: URL to its list of angle strings. *)
Definition hist_entry (kl : string * list string) : string * json :=
  (fst kl, JArr (map JStr (snd kl))).

Definition hist_json (h : list (string * list string)) : json :=
  JObj (map hist_entry h).

Definition member_text (kl : string * list string) : string :=
  Json.encode_str (fst kl) ++ ": " ++ Json.dump 1 (JArr (map JStr (snd kl))).

Fixpoint mfuel (h : list (string * list string)) : nat :=
  match h with
  | [] => 0
  | kl :: h' => (List.length (snd kl) + 4 + mfuel h')%nat
  end.

Lemma dump_arr_head (n : nat) (l : list json) (z : string) :
  exists w, Json.dump n (JArr l) ++ z = String "[" w.
Proof. destruct l; simpl; eexists; reflexivity. Qed.

Lemma join_member_head (kl : string * list string) (h : list (string * list string))
    (z : string) :
  PyStr.join (item_sep 1) (map member_text (kl :: h)) ++ z =
  String Json.quote (Json.escape (fst kl) ++ String Json.quote
    (": " ++ Json.dump 1 (JArr (map JStr (snd kl))) ++
     match h with
     | [] => z
     | _ => item_sep 1 ++ PyStr.join (item_sep 1) (map member_text h) ++ z
     end)).
Proof.
  destruct h as [|kl2 h]; cbn [map].
  - cbn [PyStr.join]. unfold member_text. rewrite !sapp_assoc, encode_str_app.
    reflexivity.
  - rewrite join_cons_cons. unfold member_text at 1. rewrite !sapp_assoc, encode_str_app.
    reflexivity.
Qed.

Lemma members_S (f dp : nat) (s : string) :
  Json.members (S f) dp s =
  match Json.string_body s with
  | Json.POk key r =>
      match Json.skip_ws r with
      | String ":" r' =>
          match Json.value f dp (Json.skip_ws r') with
          | Json.POk v r'' =>
              match Json.skip_ws r'' with
              | String "}" t => Json.POk [(key, v)] t
              | String "," t =>
                  match Json.skip_ws t with
                  | String c t' =>
                      if (c =? Json.quote)%char
                      then Json.pmap (cons (key, v)) (Json.members f dp t')
                      else Json.PErr
                  | EmptyString => Json.PErr
                  end
              | _ => Json.PErr
              end
          | Json.PErr => Json.PErr
          | Json.PValueError => Json.PValueError
          | Json.POut => Json.POut
          end
      | _ => Json.PErr
      end
  | Json.PErr => Json.PErr
  | Json.PValueError => Json.PValueError
  | Json.POut => Json.POut
  end.
Proof. reflexivity. Qed.

Lemma skip_ws_space_dump (n : nat) (l : list json) (z : string) :
  Json.skip_ws (" " ++ Json.dump n (JArr l) ++ z) = Json.dump n (JArr l) ++ z.
Proof.
  destruct (dump_arr_head n l z) as [w Ew]. rewrite Ew. reflexivity.
Qed.

Lemma string_tail_eq (c : ascii) (x y : string) : String c x = String c y -> x = y.
Proof. intros E. now injection E. Qed.

Lemma skip_ws_quote (x : string) :
  Json.skip_ws (String Json.quote x) = String Json.quote x.
Proof. reflexivity. Qed.

Lemma skip_ws_colon (x : string) :
  Json.skip_ws (": " ++ x) = String ":" (" " ++ x).
Proof. reflexivity. Qed.

(** The members of a history object, as [dump] writes them, are read back
    by [JSONObject] (from just after the first key's opening quote). *)
Lemma members_hist (h : list (string * list string)) :
  forall kl rest f dp w, (mfuel (kl :: h) <= f)%nat ->
  String Json.quote w =
    PyStr.join (item_sep 1) (map member_text (kl :: h))
    ++ Json.newline_indent 0 ++ "}" ++ rest ->
  Json.members f (S dp) w = Json.POk (map hist_entry (kl :: h)) rest.
Proof.
  induction h as [|kl2 h IH]; intros kl rest f dp w Hf Hw;
    rewrite join_member_head in Hw; apply string_tail_eq in Hw; subst w;
    (destruct f as [|f]; [simpl in Hf; lia |]);
    rewrite members_S, string_body_escape; cbv beta iota;
    rewrite skip_ws_colon; cbv beta iota;
    rewrite skip_ws_space_dump, value_arr_strs by (simpl in Hf; lia); cbv beta iota.
  - rewrite skip_ws_newline_indent. reflexivity.
  - rewrite skip_ws_item_sep. cbv beta iota.
    rewrite skip_ws_newline_indent, join_member_head, skip_ws_quote. cbv beta iota.
    change ((Json.quote =? Json.quote)%char) with true. cbv beta iota.
    erewrite IH; [reflexivity | simpl in Hf |- *; lia |].
    rewrite join_member_head. reflexivity.
Qed.

Lemma value_brace (f dp : nat) (s : string) :
  Json.value (S f) (S dp) ("{" ++ s) =
  match Json.skip_ws s with
  | String "}" r => Json.POk (JObj []) r
  | String c' r => if (c' =? Json.quote)%char
                   then Json.pmap (fun ps => JObj (Json.dict_of_pairs ps)) (Json.members f dp r)
                   else Json.PErr
  | EmptyString => Json.PErr
  end.
Proof. reflexivity. Qed.

Lemma map_member_text (h : list (string * list string)) :
  map (fun '(k, x) => Json.encode_str k ++ ": " ++ Json.dump 1 x) (map hist_entry h)
  = map member_text h.
Proof. induction h as [|kl h IH]; [reflexivity |]. cbn [map]. rewrite IH. reflexivity. Qed.

Lemma dump_hist_cons (kl : string * list string) (h : list (string * list string)) :
  Json.dump 0 (hist_json (kl :: h)) =
  "{" ++ Json.newline_indent 1 ++ PyStr.join (item_sep 1) (map member_text (kl :: h))
  ++ Json.newline_indent 0 ++ "}".
Proof.
  rewrite <- map_member_text. reflexivity.
Qed.

(** [JSONObject] reads back the text [dump] writes for a history. *)
Lemma value_hist (h : list (string * list string)) (rest : string) (f dp : nat) :
  (mfuel h + 1 <= f)%nat ->
  Json.value f (S (S dp)) (Json.dump 0 (hist_json h) ++ rest)
  = Json.POk (JObj (Json.dict_of_pairs (map hist_entry h))) rest.
Proof.
  intros Hf. destruct f as [|f]; [lia |].
  destruct h as [|kl h]; [reflexivity |].
  rewrite dump_hist_cons, !sapp_assoc, value_brace, skip_ws_newline_indent,
    join_member_head, skip_ws_quote.
  cbv beta iota. change ((Json.quote =? Json.quote)%char) with true. cbv beta iota.
  erewrite members_hist; [reflexivity | lia |].
  rewrite join_member_head. reflexivity.
Qed.

Lemma get_app_none (k : string) (a b : Dict.t) :
  Dict.get k a = None -> Dict.get k (a ++ b)%list = Dict.get k b.
Proof.
  induction a as [|[k' v'] a IH]; cbn [Dict.get app]; [reflexivity |].
  destruct (String.eqb k k'); [discriminate | exact IH].
Qed.

Lemma set_fresh (k : string) (v : json) (d : Dict.t) :
  Dict.get k d = None -> Dict.set k v d = (d ++ [(k, v)])%list.
Proof.
  induction d as [|[k' v'] d IH]; cbn [Dict.get Dict.set app]; [reflexivity |].
  destruct (String.eqb k k'); [discriminate |]. intros H. now rewrite IH.
Qed.

Lemma get_snoc_other (k k' : string) (v : json) (d : Dict.t) :
  Dict.get k d = None -> k <> k' -> Dict.get k (d ++ [(k', v)])%list = None.
Proof.
  intros Hd Hk. rewrite get_app_none by exact Hd. cbn [Dict.get].
  destruct (String.eqb_spec k k'); [contradiction | reflexivity].
Qed.

Lemma fold_set_fresh (pairs : list (string * json)) :
  forall acc : Dict.t, NoDup (map fst pairs) ->
  (forall k, In k (map fst pairs) -> Dict.get k acc = None) ->
  fold_left (fun d kv => Dict.set (fst kv) (snd kv) d) pairs acc = (acc ++ pairs)%list.
Proof.
  induction pairs as [|[k v] ps IH]; intros acc Hnd Hfr; cbn [fold_left fst snd].
  - now rewrite app_nil_r.
  - cbn [map fst] in Hnd, Hfr. inversion Hnd as [|? ? Hk Hnd']; subst.
    rewrite set_fresh by (apply Hfr; left; reflexivity).
    rewrite IH; [now rewrite <- app_assoc | exact Hnd' |].
    intros k2 Hin. apply get_snoc_other; [apply Hfr; right; exact Hin |].
    intros ->. contradiction.
Qed.

(** With distinct URLs, [dict(pairs)] keeps the pairs as they are. *)
Lemma dict_of_pairs_hist (h : list (string * list string)) :
  NoDup (map fst h) -> Json.dict_of_pairs (map hist_entry h) = map hist_entry h.
Proof.
  intros Hnd. unfold Json.dict_of_pairs. rewrite fold_set_fresh; [reflexivity | |].
  - rewrite map_map. exact Hnd.
  - intros k _. reflexivity.
Qed.

Fixpoint lensum (xs : list string) : nat :=
  match xs with
  | [] => 0
  | x :: xs' => (String.length x + lensum xs')%nat
  end.

Lemma join_length_ge (sep : string) (xs : list string) :
  (lensum xs <= String.length (PyStr.join sep xs))%nat.
Proof.
  induction xs as [|x [|y xs] IH]; [cbn; lia | cbn [lensum PyStr.join]; lia |].
  rewrite join_cons_cons, !slen_app. cbn [lensum] in IH |- *. lia.
Qed.

Lemma encode_str_length (s : string) : (2 <= String.length (Json.encode_str s))%nat.
Proof. unfold Json.encode_str. cbn [String.length]. rewrite slen_app. cbn [String.length]. lia. Qed.

Lemma lensum_encode (l : list string) :
  (2 * List.length l <= lensum (map Json.encode_str l))%nat.
Proof.
  induction l as [|x l IH]; cbn [map lensum List.length]; [lia |].
  pose proof (encode_str_length x). lia.
Qed.

Lemma dump_arr_strs_length (n : nat) (l : list string) :
  (List.length l + 2 <= String.length (Json.dump n (JArr (map JStr l))))%nat.
Proof.
  destruct l as [|x l]; [cbn; lia |].
  rewrite dump_arr_strs, !slen_app.
  pose proof (join_length_ge (item_sep (S n)) (map Json.encode_str (x :: l))).
  pose proof (lensum_encode (x :: l)). cbn [String.length List.length] in *. lia.
Qed.

Lemma member_text_length (kl : string * list string) :
  (List.length (snd kl) + 4 <= String.length (member_text kl))%nat.
Proof.
  unfold member_text. rewrite !slen_app.
  pose proof (encode_str_length (fst kl)). pose proof (dump_arr_strs_length 1 (snd kl)).
  cbn [String.length]. lia.
Qed.

Lemma lensum_member (h : list (string * list string)) :
  (mfuel h <= lensum (map member_text h))%nat.
Proof.
  induction h as [|kl h IH]; cbn [map lensum mfuel]; [lia |].
  pose proof (member_text_length kl). lia.
Qed.

Lemma hist_text_length (h : list (string * list string)) :
  (mfuel h <= String.length (Json.dumps (hist_json h)))%nat.
Proof.
  destruct h as [|kl h]; [cbn; lia |].
  unfold Json.dumps. rewrite dump_hist_cons, !slen_app.
  pose proof (join_length_ge (item_sep 1) (map member_text (kl :: h))).
  pose proof (lensum_member (kl :: h)). lia.
Qed.

Lemma skip_ws_dump_hist (h : list (string * list string)) :
  Json.skip_ws (Json.dumps (hist_json h)) = Json.dumps (hist_json h).
Proof.
  destruct h as [|kl h]; [reflexivity |].
  unfold Json.dumps. rewrite dump_hist_cons. reflexivity.
Qed.

(** C8: [save_history] followed by [load_history] gives back the history.
    For a history mapping distinct URLs to lists of angle strings, and a
    file that can be opened for writing, the text that
    [json.dump(..., indent=2, ensure_ascii=False)] writes is parsed by
    [json.load] into the same mapping, keys and list order included. *)
Theorem save_load_roundtrip (h : list (string * list string))
    (Hnd : NoDup (map fst h)) (st : History.fs)
    (Hw : History.fs_writable st = true) :
  History.load_history (fst (History.save_history (hist_json h) st))
  = History.Returned (hist_json h).
Proof.
  unfold History.save_history. rewrite Hw. cbn [fst].
  unfold History.load_history, Json.loads. cbn [History.fs_file].
  rewrite skip_ws_dump_hist.
  pose proof (value_hist h EmptyString (String.length (Json.dumps (hist_json h)) + 1) 98) as V.
  rewrite sapp_nil_r, dict_of_pairs_hist in V by exact Hnd.
  change Json.max_depth with (S (S 98)).
  unfold Json.dumps at 2. rewrite V by (pose proof (hist_text_length h); lia).
  reflexivity.
Qed.


Definition roundtrip_history : list (string * list string) :=
  [("https://example.com/en/post", ["A data-driven angle"; "Tax " ++ String Json.quote "myths"]);
   ("https://example.com/sv/artikel", ["Spara enkelt" ++ String "010" "med index"])].

Definition roundtrip_fs : History.fs := History.mkFs (History.FText "{}") true.

Lemma save_load_roundtrip_witness :
  NoDup (map fst roundtrip_history) /\ History.fs_writable roundtrip_fs = true /\
  History.load_history (fst (History.save_history (hist_json roundtrip_history) roundtrip_fs))
  = History.Returned (hist_json roundtrip_history).
Proof.
  assert (Hnd : NoDup (map fst roundtrip_history)).
  { constructor; [cbn; intros [H | []]; discriminate H | constructor; [intros [] | constructor]]. }
  split; [exact Hnd | split; [reflexivity |]].
  apply (save_load_roundtrip roundtrip_history Hnd roundtrip_fs). reflexivity.
Defined.


(* ------------------------------------------------------------------ *)
(** ** Stripping *)

Lemma rstrip_idem (s : string) : PyStr.rstrip (PyStr.rstrip s) = PyStr.rstrip s.
Proof.
  induction s as [|c s IH]; [reflexivity |].
  cbn [PyStr.rstrip].
  destruct (PyStr.is_space c && (String.length (PyStr.rstrip s) =? 0)%nat) eqn:E;
    [reflexivity |].
  cbn [PyStr.rstrip]. rewrite IH, E. reflexivity.
Qed.

Lemma lstrip_head (s : string) :
  PyStr.lstrip s = EmptyString \/
  exists c s', PyStr.lstrip s = String c s' /\ PyStr.is_space c = false.
Proof.
  induction s as [|c s IH]; [now left |].
  cbn [PyStr.lstrip]. destruct (PyStr.is_space c) eqn:E; [exact IH |].
  right. now exists c, s.
Qed.

Lemma lstrip_rstrip_lstrip (s : string) :
  PyStr.lstrip (PyStr.rstrip (PyStr.lstrip s)) = PyStr.rstrip (PyStr.lstrip s).
Proof.
  destruct (lstrip_head s) as [-> | [c [s' [-> Hc]]]]; [reflexivity |].
  cbn [PyStr.rstrip]. rewrite Hc. cbn [andb PyStr.lstrip]. rewrite Hc. reflexivity.
Qed.

(** [s.strip()] leaves nothing more to strip. *)
Lemma strip_idem (s : string) : PyStr.strip (PyStr.strip s) = PyStr.strip s.
Proof.
  unfold PyStr.strip. rewrite lstrip_rstrip_lstrip. apply rstrip_idem.
Qed.

(* ------------------------------------------------------------------ *)
(** ** Rewriting [http://] to [https://] *)

Definition http : string := "http://".
Definition https : string := "https://".

(** No character of the string is [h]. *)
Fixpoint no_h (q : string) : bool :=
  match q with
  | EmptyString => true
  | String c q' => negb (Ascii.eqb c "h") && no_h q'
  end.

Lemma prefix_nil (s : string) : prefix EmptyString s = true.
Proof. now destruct s. Qed.

Lemma substring_0_long (s : string) (m : nat) :
  (String.length s <= m)%nat -> substring 0 m s = s.
Proof.
  revert m; induction s as [|c s IH]; intros m Hm; [now destruct m |].
  destruct m as [|m]; [simpl in Hm; lia |].
  simpl. rewrite IH by (simpl in Hm; lia). reflexivity.
Qed.

(** A prefix without [h] sees the same text before and after the
    rewriting: both start with [h] where an occurrence was replaced. *)
Lemma prefix_replace_http (f : nat) :
  forall s q, (String.length s <= f)%nat -> no_h q = true ->
  prefix q (PyStr.replace_aux f http https s) = prefix q s.
Proof.
  induction f as [|f IH]; intros s q Hs Hq; [reflexivity |].
  destruct s as [|c s']; [reflexivity |].
  cbn [PyStr.replace_aux].
  destruct (prefix http (String c s')) eqn:Hp.
  - apply prefix_iff in Hp. destruct Hp as [b Hb].
    injection Hb as -> _.
    destruct q as [|e q']; [now rewrite !prefix_nil |].
    cbn [no_h] in Hq. apply andb_true_iff in Hq as [He _].
    change (https ++ ?x) with (String "h" ("ttps://" ++ x)).
    cbn [prefix].
    destruct (ascii_dec e "h") as [-> | _]; [discriminate | reflexivity].
  - destruct q as [|e q']; [now rewrite !prefix_nil |].
    cbn [no_h] in Hq. apply andb_true_iff in Hq as [_ Hq'].
    cbn [prefix]. destruct (ascii_dec e c); [| reflexivity].
    apply IH; [simpl in Hs; lia | exact Hq'].
Qed.

Lemma replace_aux_prefix (n : nat) (p r s : string) :
  p <> EmptyString -> prefix p s = true ->
  exists x, PyStr.replace_aux (S n) p r s = r ++ x.
Proof.
  intros Hp Hs. destruct s as [|c s'].
  - destruct p; [contradiction | discriminate].
  - cbn [PyStr.replace_aux]. rewrite Hs. eexists; reflexivity.
Qed.

Lemma contains_https_app (y : string) :
  PyStr.contains http (https ++ y) = PyStr.contains http y.
Proof. reflexivity. Qed.

(** After [s.replace('http://', 'https://')] no [http://] is left: an
    [https://] written in does not contain one, and none is formed across
    its ends. *)
Lemma contains_replace_http (f : nat) :
  forall s, (String.length s <= f)%nat ->
  PyStr.contains http (PyStr.replace_aux f http https s) = false.
Proof.
  induction f as [|f IH]; intros s Hs.
  - destruct s; [reflexivity | simpl in Hs; lia].
  - destruct s as [|c s']; [reflexivity |].
    cbn [PyStr.replace_aux].
    destruct (prefix http (String c s')) eqn:Hp.
    + pose proof Hp as Hp'. apply prefix_iff in Hp' as [b Hb].
      rewrite Hb. rewrite contains_https_app.
      change (substring (String.length http) (String.length (http ++ b)) (http ++ b))
        with (substring 0 (String.length (http ++ b)) b).
      rewrite substring_0_long by (rewrite slen_app; lia). apply IH.
      rewrite Hb in Hs. rewrite slen_app in Hs. simpl in Hs. lia.
    + cbn [PyStr.contains]. rewrite IH by (simpl in Hs; lia). rewrite orb_false_r.
      change http with (String "h" "ttp://") in *.
      cbn [prefix] in Hp |- *.
      destruct (ascii_dec "h" c); [| reflexivity].
      rewrite prefix_replace_http by (simpl in Hs |- *; first [lia | reflexivity]).
      exact Hp.
Qed.

(* ------------------------------------------------------------------ *)
(** ** Extra properties of the normalizer and the extractor *)

(** Whenever the normalized response has a [post_text], it is a string
    with no leading or trailing whitespace, and [language] is set from the
    article URL. *)
Theorem normalize_post_text_stripped (url : string) (data : json) (r : Dict.t) (v : json)
    (Hn : Generate.normalize url data = Some (JObj r))
    (Hp : Dict.get "post_text" r = Some v) :
  exists t, v = JStr t /\ PyStr.strip t = t /\
    Dict.get "language" r = Some (JStr (Generate.target_lang url)).
Proof.
  destruct data as [| | | | |d]; try discriminate.
  unfold Generate.normalize in Hn.
  destruct (Dict.get "post_text" (Generate.resolve_caption d)) as [[| | |text| |]|] eqn:E;
    try discriminate.
  - injection Hn as <-.
    rewrite get_set_other in Hp by discriminate. rewrite get_set_same in Hp.
    injection Hp as <-. exists (Generate.clean_text url text).
    split; [reflexivity |]. split; [apply strip_idem | apply get_set_same].
  - injection Hn as <-. congruence.
Qed.

Definition padded_caption_response : json :=
  JObj [("instagram_post",
         JObj [("caption_text", JStr (" **Fresh** take" ++ String "010" EmptyString))])].

Lemma normalize_post_text_stripped_witness :
  Generate.normalize "https://example.com/a" padded_caption_response
    = Some (JObj [("instagram_post",
                   JObj [("caption_text", JStr (" **Fresh** take" ++ String "010" EmptyString))]);
                  ("post_text", JStr "Fresh take"); ("language", JStr "sv")]) /\
  exists t, JStr "Fresh take" = JStr t /\ PyStr.strip t = t /\
    Dict.get "language" [("instagram_post",
                   JObj [("caption_text", JStr (" **Fresh** take" ++ String "010" EmptyString))]);
                  ("post_text", JStr "Fresh take"); ("language", JStr "sv")]
    = Some (JStr (Generate.target_lang "https://example.com/a")).
Proof.
  assert (Hn : Generate.normalize "https://example.com/a" padded_caption_response
    = Some (JObj [("instagram_post",
                   JObj [("caption_text", JStr (" **Fresh** take" ++ String "010" EmptyString))]);
                  ("post_text", JStr "Fresh take"); ("language", JStr "sv")]))
    by (vm_compute; reflexivity).
  split; [exact Hn |].
  exact (normalize_post_text_stripped _ _ _ _ Hn eq_refl).
Defined.

(** The scraped image URL: when the meta image URL starts with [http://],
    the result starts with [https://] and contains no [http://] anywhere
    (every occurrence is rewritten, in a query string too); any other
    image URL is kept as it is. *)
Theorem scrape_image_https (url : string) (d : Extract.doc) :
  (forall s, Extract.image_from_meta d = Some s -> PyStr.startswith "http://" s = true ->
     exists t, Extract.a_image_url (Extract.scrape_doc url d) = Some t /\
       PyStr.startswith "https://" t = true /\ PyStr.contains "http://" t = false) /\
  (forall s, Extract.image_from_meta d = Some s -> PyStr.startswith "http://" s = false ->
     Extract.a_image_url (Extract.scrape_doc url d) = Some s) /\
  (Extract.image_from_meta d = None -> Extract.a_image_url (Extract.scrape_doc url d) = None).
Proof.
  unfold Extract.scrape_doc. cbn [Extract.a_image_url]. unfold Extract.force_https.
  split; [| split].
  - intros s Hs Hh. rewrite Hs, Hh.
    destruct s as [|c s']; [discriminate |].
    cbn [Extract.str_truthy String.eqb negb andb].
    exists (PyStr.replace http https (String c s')). split; [reflexivity |].
    unfold PyStr.replace. cbn [String.length].
    split.
    + destruct (replace_aux_prefix (String.length s') http https (String c s'))
        as [x ->]; [discriminate | exact Hh |].
      unfold PyStr.startswith. apply prefix_iff. now exists x.
    + apply (contains_replace_http (S (String.length s')) (String c s')).
      simpl; lia.
  - intros s Hs Hh. rewrite Hs, Hh. now rewrite andb_false_r.
  - intros Hs. now rewrite Hs.
Qed.

(* ------------------------------------------------------------------ *)
(** ** The [.env] fallback loader *)

Lemma env_get_set (k k' v : string) (e : Env.t) :
  Env.get k (Env.set k' v e) = if String.eqb k' k then Some v else Env.get k e.
Proof.
  induction e as [|[k0 v0] e IH]; cbn [Env.set Env.get].
  - destruct (String.eqb_spec k k'), (String.eqb_spec k' k); congruence.
  - destruct (String.eqb_spec k' k0) as [-> | Hne]; cbn [Env.get].
    + destruct (String.eqb_spec k k0), (String.eqb_spec k0 k); congruence.
    + rewrite IH. destruct (String.eqb_spec k k0) as [-> |]; [| reflexivity].
      destruct (String.eqb_spec k' k0); congruence.
Qed.

(** The value a variable has after the [.env] lines, starting from
    [prior]: the last line that assigns it wins. *)
Fixpoint last_value (k : string) (lines : list string) (prior : option string)
  : option string :=
  match lines with
  | [] => prior
  | line :: lines' =>
      last_value k lines'
        (if DotEnv.is_assignment line then
           match DotEnv.pair_of_line line with
           | Some (k', v) => if String.eqb k' k then Some v else prior
           | None => prior
           end
         else prior)
  end.

(** When the fallback loader completes, each variable has the value of
    the last line of [.env] assigning it (quotes stripped), even if it was
    already set in the environment; comment lines, lines without [=] and
    variables no line assigns leave the environment as it was. *)
Theorem dotenv_last_assignment_wins (lines : list string) (e e' : Env.t)
    (H : DotEnv.load_lines lines e = Some e') :
  forall k, Env.get k e' = last_value k lines (Env.get k e).
Proof.
  revert e H. induction lines as [|line lines IH]; intros e H k.
  - injection H as <-. reflexivity.
  - cbn [DotEnv.load_lines] in H. cbn [last_value].
    destruct (DotEnv.load_line line e) as [e0|] eqn:E; [| discriminate].
    rewrite (IH e0 H k). f_equal.
    unfold DotEnv.load_line in E.
    destruct (DotEnv.is_assignment line); [| now injection E as <-].
    destruct (DotEnv.pair_of_line line) as [[k' v]|]; [| discriminate].
    unfold Env.setitem in E.
    destruct (_ || _ || _); [discriminate |]. injection E as <-.
    apply env_get_set.
Qed.

Definition sample_dotenv : list string :=
  ["# GEMINI_API_KEY=old"; "GEMINI_API_KEY='k1'"; "OTHER"; "GEMINI_API_KEY=k2=x"].

Lemma dotenv_last_assignment_wins_witness :
  DotEnv.load_lines sample_dotenv [("GEMINI_API_KEY", "shell")]
    = Some [("GEMINI_API_KEY", "k2=x")] /\
  Env.get "GEMINI_API_KEY" [("GEMINI_API_KEY", "k2=x")]
    = last_value "GEMINI_API_KEY" sample_dotenv (Some "shell").
Proof.
  assert (H : DotEnv.load_lines sample_dotenv [("GEMINI_API_KEY", "shell")]
                = Some [("GEMINI_API_KEY", "k2=x")]) by (vm_compute; reflexivity).
  split; [exact H | exact (dotenv_last_assignment_wins _ _ _ H "GEMINI_API_KEY")].
Defined.

Lemma lstrip_suffix (s : string) : exists a, s = a ++ PyStr.lstrip s.
Proof.
  induction s as [|c s [a Ha]]; [now exists EmptyString |].
  cbn [PyStr.lstrip]. destruct (PyStr.is_space c).
  - exists (String c a). simpl. now rewrite <- Ha.
  - now exists EmptyString.
Qed.

Lemma rstrip_prefix (s : string) : exists b, s = PyStr.rstrip s ++ b.
Proof.
  induction s as [|c s [b Hb]]; [now exists EmptyString |].
  cbn [PyStr.rstrip].
  destruct (PyStr.is_space c && (String.length (PyStr.rstrip s) =? 0)%nat).
  - now exists (String c s).
  - exists b. simpl. now rewrite <- Hb.
Qed.

(** Text found in [s.strip()] is found in [s]. *)
Lemma contains_strip (p s : string) :
  PyStr.contains p (PyStr.strip s) = true -> PyStr.contains p s = true.
Proof.
  rewrite !contains_iff. intros [x [y Hxy]].
  destruct (lstrip_suffix s) as [a Ha]. destruct (rstrip_prefix (PyStr.lstrip s)) as [b Hb].
  exists (a ++ x), (y ++ b). rewrite Ha, Hb. unfold PyStr.strip in Hxy. rewrite Hxy.
  now rewrite !sapp_assoc.
Qed.

Lemma load_lines_raises (line : string) (lines : list string) :
  In line lines -> (forall e, DotEnv.load_line line e = None) ->
  forall e, DotEnv.load_lines lines e = None.
Proof.
  intros Hin Hl. induction lines as [|l lines IH]; [destruct Hin |].
  intros e. cbn [DotEnv.load_lines]. destruct Hin as [-> | Hin].
  - now rewrite Hl.
  - destruct (DotEnv.load_line l e); [now apply IH | reflexivity].
Qed.

(** A line of [.env] that is not a comment and whose stripped text
    starts with [=] (an empty variable name) makes the fallback loader
    raise, whatever the other lines: the program stops at import. *)
Theorem dotenv_empty_name_raises (lines : list string) (line : string) (e : Env.t)
    (Hin : In line lines)
    (Hc : PyStr.startswith "#" line = false)
    (Heq : PyStr.startswith "=" (PyStr.strip line) = true) :
  DotEnv.load_lines lines e = None.
Proof.
  apply (load_lines_raises line); [exact Hin |]. intros e0.
  unfold PyStr.startswith in Heq. apply prefix_iff in Heq as [rest Hr].
  assert (Hcont : PyStr.contains "=" line = true).
  { apply contains_strip. rewrite Hr. apply contains_iff.
    now exists EmptyString, rest. }
  unfold DotEnv.load_line, DotEnv.is_assignment. rewrite Hcont, Hc. cbn [andb negb].
  unfold DotEnv.pair_of_line. rewrite Hr.
  change (DotEnv.split_once "=" ("=" ++ rest)) with [EmptyString; rest].
  cbv beta iota. unfold Env.setitem.
  change (String.eqb EmptyString "") with true. now rewrite orb_true_r.
Qed.

Lemma dotenv_empty_name_raises_witness :
  In "  =oops" ["GEMINI_API_KEY=k"; "  =oops"] /\
  PyStr.startswith "#" "  =oops" = false /\
  PyStr.startswith "=" (PyStr.strip "  =oops") = true /\
  DotEnv.load_lines ["GEMINI_API_KEY=k"; "  =oops"] [] = None.
Proof.
  assert (Hin : In "  =oops" ["GEMINI_API_KEY=k"; "  =oops"]) by (right; left; reflexivity).
  assert (Hc : PyStr.startswith "#" "  =oops" = false) by reflexivity.
  assert (He : PyStr.startswith "=" (PyStr.strip "  =oops") = true) by (vm_compute; reflexivity).
  split; [exact Hin | split; [exact Hc | split; [exact He |]]].
  exact (dotenv_empty_name_raises _ _ [] Hin Hc He).
Defined.

(* ------------------------------------------------------------------ *)
(** ** Runs of [main] *)

(** The history saved for [h] is loaded back as [h] by the next run. *)
Lemma load_saved_hist (h : list (string * list string)) (st : History.fs) :
  NoDup (map fst h) -> History.fs_writable st = true ->
  History.load_history (fst (History.save_history (hist_json h) st))
  = History.Returned (hist_json h).
Proof.
  intros Hnd Hw.
  unfold History.save_history. rewrite Hw. cbn [fst].
  unfold History.load_history, Json.loads. cbn [History.fs_file].
  rewrite skip_ws_dump_hist.
  pose proof (value_hist h EmptyString (String.length (Json.dumps (hist_json h)) + 1) 98) as V.
  rewrite sapp_nil_r, dict_of_pairs_hist in V by exact Hnd.
  change Json.max_depth with (S (S 98)).
  unfold Json.dumps at 2. rewrite V by (pose proof (hist_text_length h); lia).
  reflexivity.
Qed.

(** Lookup and update of a history given as URL and angle list pairs. *)
Fixpoint hget (k : string) (h : list (string * list string)) : option (list string) :=
  match h with
  | [] => None
  | (k', l) :: h' => if String.eqb k k' then Some l else hget k h'
  end.

Fixpoint hset (k : string) (l : list string) (h : list (string * list string))
  : list (string * list string) :=
  match h with
  | [] => [(k, l)]
  | (k', l') :: h' => if String.eqb k k' then (k', l) :: h' else (k', l') :: hset k l h'
  end.

Lemma dict_get_hist (k : string) (h : list (string * list string)) :
  Dict.get k (map hist_entry h) =
  match hget k h with Some l => Some (JArr (map JStr l)) | None => None end.
Proof.
  induction h as [|[k' l] h IH]; [reflexivity |].
  cbn [map Dict.get hget hist_entry fst snd]. now destruct (String.eqb k k').
Qed.

Lemma dict_set_hist (k : string) (l : list string) (h : list (string * list string)) :
  Dict.set k (JArr (map JStr l)) (map hist_entry h) = map hist_entry (hset k l h).
Proof.
  induction h as [|[k' l'] h IH]; [reflexivity |].
  cbn [map Dict.set hset hist_entry fst snd].
  destruct (String.eqb k k'); [reflexivity | now rewrite IH].
Qed.

Lemma dict_set_set (k : string) (v v' : json) (d : Dict.t) :
  Dict.set k v (Dict.set k v' d) = Dict.set k v d.
Proof.
  induction d as [|[k' x] d IH]; cbn [Dict.set].
  - now rewrite String.eqb_refl.
  - destruct (String.eqb k k') eqn:E; cbn [Dict.set]; rewrite E; [reflexivity | now rewrite IH].
Qed.

Lemma hget_hset (k k2 : string) (l : list string) (h : list (string * list string)) :
  hget k2 (hset k l h) = if String.eqb k2 k then Some l else hget k2 h.
Proof.
  induction h as [|[k' l'] h IH]; cbn [hset hget].
  - reflexivity.
  - destruct (String.eqb_spec k k') as [-> | Hne]; cbn [hget].
    + destruct (String.eqb k2 k'); reflexivity.
    + rewrite IH. destruct (String.eqb_spec k2 k') as [-> |]; [| reflexivity].
      destruct (String.eqb_spec k' k); congruence.
Qed.

Lemma map_fst_hset (k : string) (l : list string) (h : list (string * list string)) :
  map fst (hset k l h) =
  match hget k h with Some _ => map fst h | None => (map fst h ++ [k])%list end.
Proof.
  induction h as [|[k' l'] h IH]; [reflexivity |].
  cbn [hset hget map fst].
  destruct (String.eqb_spec k k') as [-> | _]; [reflexivity |].
  cbn [map fst]. rewrite IH. now destruct (hget k h).
Qed.

Lemma hget_in (k : string) (h : list (string * list string)) :
  hget k h = None -> ~ In k (map fst h).
Proof.
  induction h as [|[k' l'] h IH]; [intros _ [] |].
  cbn [hget map fst]. destruct (String.eqb_spec k k'); [discriminate |].
  intros Hn [E | Hin]; [congruence | exact (IH Hn Hin)].
Qed.

Lemma NoDup_snoc {A} (l : list A) (x : A) :
  NoDup l -> ~ In x l -> NoDup (l ++ [x])%list.
Proof.
  induction l as [|y l IH]; intros Hnd Hx; cbn [app].
  - repeat constructor. intros [].
  - inversion Hnd as [|? ? Hy Hnd']; subst. constructor.
    + rewrite in_app_iff. intros [Hin | [E | []]]; [contradiction | subst; apply Hx; now left].
    + apply IH; [exact Hnd' | intros Hin; apply Hx; now right].
Qed.

Lemma nodup_hset (k : string) (l : list string) (h : list (string * list string)) :
  NoDup (map fst h) -> NoDup (map fst (hset k l h)).
Proof.
  intros Hnd. rewrite map_fst_hset. destruct (hget k h) eqn:E; [exact Hnd |].
  apply NoDup_snoc; [exact Hnd | now apply hget_in].
Qed.

Lemma existsb_json_str (a : string) (l : list string) :
  existsb (json_eqb (JStr a)) (map JStr l) = existsb (String.eqb a) l.
Proof. induction l as [|x l IH]; cbn [map existsb]; [reflexivity | now rewrite IH]. Qed.

Definition old_angles (url : string) (h : list (string * list string)) : list string :=
  match hget url h with Some l => l | None => [] end.

(** Recording a non-empty angle string on a history of angle lists. *)
Lemma record_hist (url angle : string) (h : list (string * list string)) :
  angle <> EmptyString ->
  Main.record_angle url (JStr angle) (hist_json h) =
  if existsb (String.eqb angle) (old_angles url h) then Some (hist_json h, false)
  else Some (hist_json (hset url (old_angles url h ++ [angle])%list h), true).
Proof.
  intros Hne. unfold Main.record_angle, hist_json, old_angles.
  assert (Ht : truthy (JStr angle) = true).
  { cbn. destruct (String.eqb_spec angle ""); [contradiction | reflexivity]. }
  rewrite Ht. cbv beta iota zeta delta [negb].
  unfold Dict.mem. rewrite dict_get_hist.
  destruct (hget url h) as [l0|] eqn:E.
  - rewrite dict_get_hist, E, existsb_json_str.
    destruct (existsb (String.eqb angle) l0); [reflexivity |].
    change [JStr angle] with (map JStr [angle]).
    rewrite <- (map_app JStr l0 [angle]). now rewrite dict_set_hist.
  - rewrite get_set_same. cbn [existsb app].
    rewrite dict_set_set. change [JStr angle] with (map JStr [angle]).
    now rewrite dict_set_hist.
Qed.

Lemma history_angles_hist (url : string) (h : list (string * list string)) (l : list string) :
  hget url h = Some l -> l <> [] ->
  Run.history_angles (hist_json h) url = Some (Some (JArr (map JStr l))).
Proof.
  intros Hg Hl. unfold Run.history_angles, hist_json.
  assert (Ht : truthy (JObj (map hist_entry h)) = true) by (destruct h; [discriminate | reflexivity]).
  rewrite Ht. cbv beta iota delta [negb].
  rewrite dict_get_hist, Hg. cbn [truthy].
  destruct l; [contradiction | reflexivity].
Qed.

(** Across runs: when a run ends normally on a history of angle lists
    (distinct URLs, file writable) and its result carries a non-empty
    angle string, the next run loads a history where the URL's angles
    are the previous ones, in order, followed by the new angle unless it
    was already there; other URLs keep theirs; and the next run's prompt
    lists exactly these angles for the URL. *)
Theorem main_angle_reaches_next_prompt (env : Env.t) (a : Run.args)
    (fetched : option Extract.doc) (parsed : option json) (st : History.fs)
    (h : list (string * list string)) (p : json) (st' : History.fs)
    (posted : option (string * json)) (angle : string)
    (Hnd : NoDup (map fst h))
    (Hload : History.load_history st = History.Returned (hist_json h))
    (Hw : History.fs_writable st = true)
    (Hurl : Run.arg_url a <> EmptyString)
    (Hrun : Run.main env a fetched parsed st = Run.Finished p st' posted)
    (Hang : exists r, p = JObj r /\ Main.angle_of r = JStr angle)
    (Hne : angle <> EmptyString) :
  let old := old_angles (Run.arg_url a) h in
  let l := (old ++ if existsb (String.eqb angle) old then [] else [angle])%list in
  exists h', History.load_history st' = History.Returned (hist_json h') /\
    NoDup (map fst h') /\
    hget (Run.arg_url a) h' = Some l /\
    (forall k, k <> Run.arg_url a -> hget k h' = hget k h) /\
    Run.history_angles (hist_json h') (Run.arg_url a) = Some (Some (JArr (map JStr l))).
Proof.
  intros old l. unfold Run.main in Hrun.
  destruct (negb (Extract.str_truthy (get_api_key env))); [discriminate |].
  destruct fetched as [d|]; [| discriminate]. cbn [Extract.scrape_article] in Hrun.
  rewrite Hload in Hrun.
  change (Extract.a_url (Extract.scrape_doc (Run.arg_url a) d)) with (Run.arg_url a) in Hrun.
  destruct (Run.history_angles (hist_json h) (Run.arg_url a)); [| discriminate].
  destruct (Generate.generate_instagram_post _ parsed) as [result|]; [| discriminate].
  destruct (negb (truthy result)); [discriminate |].
  destruct result as [| | | | |dres]; try discriminate.
  match type of Hrun with
  | context [if ?c then Run.Outside else _] => destruct c; [discriminate |]
  end.
  unfold Main.main_tail in Hrun.
  destruct (String.eqb_spec (Run.arg_url a) ""); [contradiction |].
  destruct Hang as [r [-> Hang]].
  destruct (Main.record_angle (Run.arg_url a)
             (Main.angle_of (Main.refine (Run.arg_url a) (Extract.scrape_doc (Run.arg_url a) d) dres))
             (hist_json h)) as [[h2 saved]|] eqn:Erec; [| discriminate].
  injection Hrun as Hr Hst _. subst st'.
  rewrite Hr, Hang, record_hist in Erec by exact Hne.
  fold old in Erec. unfold l.
  destruct (existsb (String.eqb angle) old) eqn:Ex.
  - injection Erec as <- <-. exists h. rewrite app_nil_r.
    assert (Hg : hget (Run.arg_url a) h = Some old).
    { unfold old, old_angles in Ex |- *. destruct (hget (Run.arg_url a) h); [reflexivity | discriminate]. }
    split; [exact Hload |]. split; [exact Hnd |]. split; [exact Hg |].
    split; [reflexivity |].
    apply history_angles_hist; [exact Hg |]. intros E. rewrite E in Ex. discriminate.
  - injection Erec as <- <-.
    exists (hset (Run.arg_url a) (old ++ [angle])%list h).
    split; [apply load_saved_hist; [now apply nodup_hset | exact Hw] |].
    split; [now apply nodup_hset |].
    split; [now rewrite hget_hset, String.eqb_refl |].
    split.
    + intros k Hk. rewrite hget_hset. now destruct (String.eqb_spec k (Run.arg_url a)).
    + apply history_angles_hist; [now rewrite hget_hset, String.eqb_refl |].
      intros E. now destruct old.
Qed.

Definition demo_url : string := "https://example.com/en/post".
Definition demo_env : Env.t := [("GEMINI_API_KEY", "key")].
Definition demo_args : Run.args := Run.mkArgs demo_url "" true.
Definition demo_doc : Extract.doc :=
  Extract.mkDoc (Some (Some "Post")) None [] [] None None None.
Definition demo_reply : json :=
  JObj [("instagram_post", JObj [("caption_text", JStr "Hi");
                                 ("angle_description", JStr "a cost angle")])].
Definition demo_history : list (string * list string) := [(demo_url, ["a story angle"])].
Definition demo_fs : History.fs :=
  History.mkFs (History.FText (Json.dumps (hist_json demo_history))) true.

Definition run_printed (r : Run.run) : json :=
  match r with Run.Finished p _ _ => p | _ => JNull end.
Definition run_fs (r : Run.run) : History.fs :=
  match r with
  | Run.Finished _ st _ | Run.Exit1 st | Run.Crash _ st => st
  | Run.Outside => History.mkFs History.FMissing false
  end.
Definition run_posted (r : Run.run) : option (string * json) :=
  match r with Run.Finished _ _ po => po | _ => None end.

Definition demo_run : Run.run :=
  Run.main demo_env demo_args (Some demo_doc) (Some demo_reply) demo_fs.

Lemma main_angle_reaches_next_prompt_witness :
  History.load_history demo_fs = History.Returned (hist_json demo_history) /\
  demo_run = Run.Finished (run_printed demo_run) (run_fs demo_run) (run_posted demo_run) /\
  exists h', History.load_history (run_fs demo_run) = History.Returned (hist_json h') /\
    hget demo_url h' = Some ["a story angle"; "a cost angle"].
Proof.
  assert (Hnd : NoDup (map fst demo_history)) by (constructor; [intros [] | constructor]).
  assert (Hload : History.load_history demo_fs = History.Returned (hist_json demo_history))
    by (vm_compute; reflexivity).
  assert (Hrun : demo_run = Run.Finished (run_printed demo_run) (run_fs demo_run)
                                         (run_posted demo_run))
    by (vm_compute; reflexivity).
  assert (Hang : exists r, run_printed demo_run = JObj r /\
                           Main.angle_of r = JStr "a cost angle").
  { exists (match run_printed demo_run with JObj r => r | _ => [] end).
    split; vm_compute; reflexivity. }
  split; [exact Hload |]. split; [exact Hrun |].
  destruct (main_angle_reaches_next_prompt demo_env demo_args (Some demo_doc) (Some demo_reply)
              demo_fs demo_history _ _ _ "a cost angle" Hnd Hload eq_refl
              ltac:(discriminate) Hrun Hang ltac:(discriminate))
    as [h' [Hl [_ [Hg _]]]].
  exists h'. split; [exact Hl | exact Hg].
Defined.

(** Without a non-empty [GEMINI_API_KEY] or [GOOGLE_API_KEY], [main]
    exits with status 1 before fetching the page: the result does not
    depend on the page or the model, the history file is untouched and
    nothing is posted. *)
Theorem main_no_api_key (env : Env.t) (a : Run.args) (fetched : option Extract.doc)
    (parsed : option json) (st : History.fs)
    (Hg : Extract.str_truthy (Env.get "GEMINI_API_KEY" env) = false)
    (Hk : Extract.str_truthy (Env.get "GOOGLE_API_KEY" env) = false) :
  Run.main env a fetched parsed st = Run.Exit1 st.
Proof. unfold Run.main, get_api_key. rewrite Hg, Hk. reflexivity. Qed.

Lemma main_no_api_key_witness :
  Extract.str_truthy (Env.get "GEMINI_API_KEY" [("GEMINI_API_KEY", "")]) = false /\
  Extract.str_truthy (Env.get "GOOGLE_API_KEY" [("GEMINI_API_KEY", "")]) = false /\
  Run.main [("GEMINI_API_KEY", "")] demo_args (Some demo_doc) (Some demo_reply) demo_fs
    = Run.Exit1 demo_fs.
Proof.
  split; [reflexivity | split; [reflexivity |]].
  apply main_no_api_key; reflexivity.
Defined.

Lemma history_angles_obj (d : Dict.t) (url : string) :
  exists x, Run.history_angles (JObj d) url = Some x.
Proof.
  unfold Run.history_angles. destruct (negb (truthy (JObj d))); [now eexists |].
  destruct (Dict.get url d) as [v|]; [destruct (truthy v) |]; now eexists.
Qed.

(** With a key, a fetched page and a history file holding a JSON object
    (read without error, so nested at most [Json.max_depth] levels), a
    model reply that is not a non-empty JSON object (no JSON at all, a
    list, a string, a number, or [{}]) ends the run with exit status 1:
    the history file is untouched and nothing is posted. *)
Theorem main_unusable_reply (env : Env.t) (a : Run.args) (d : Extract.doc)
    (parsed : option json) (st : History.fs) (hd : Dict.t)
    (Hkey : Extract.str_truthy (get_api_key env) = true)
    (Hload : History.load_history st = History.Returned (JObj hd))
    (Hp : forall r, parsed = Some (JObj r) -> r = []) :
  Run.main env a (Some d) parsed st = Run.Exit1 st.
Proof.
  unfold Run.main. rewrite Hkey. cbv beta iota delta [negb].
  cbn [Extract.scrape_article]. rewrite Hload.
  destruct (history_angles_obj hd (Extract.a_url (Extract.scrape_doc (Run.arg_url a) d)))
    as [x Hx].
  rewrite Hx.
  unfold Generate.generate_instagram_post.
  destruct parsed as [[| | | | |r]|]; try reflexivity.
  rewrite (Hp r eq_refl). reflexivity.
Qed.

Lemma main_unusable_reply_witness :
  Extract.str_truthy (get_api_key demo_env) = true /\
  History.load_history demo_fs = History.Returned (hist_json demo_history) /\
  Run.main demo_env demo_args (Some demo_doc) (Some (JObj [])) demo_fs = Run.Exit1 demo_fs.
Proof.
  assert (Hload : History.load_history demo_fs = History.Returned (hist_json demo_history))
    by (vm_compute; reflexivity).
  split; [reflexivity | split; [exact Hload |]].
  apply (main_unusable_reply demo_env demo_args demo_doc (Some (JObj [])) demo_fs
           (map hist_entry demo_history) eq_refl Hload).
  intros r E. injection E as <-. reflexivity.
Defined.

(** A history file holding a JSON list that contains the article URL, or
    a non-empty JSON string that contains it, makes [main] crash in
    [generate_instagram_post] before the [try] ([history[url]] on a list
    or a string): nothing is printed or posted and the file is kept. *)
Theorem main_history_contains_url_crash (env : Env.t) (a : Run.args) (d : Extract.doc)
    (parsed : option json) (st : History.fs) (history : json)
    (Hkey : Extract.str_truthy (get_api_key env) = true)
    (Hload : History.load_history st = History.Returned history)
    (Hh : (exists l, history = JArr l /\ In (JStr (Run.arg_url a)) l) \/
          (exists s, history = JStr s /\ s <> EmptyString /\
                     PyStr.contains (Run.arg_url a) s = true)) :
  Run.main env a (Some d) parsed st = Run.Crash None st.
Proof.
  unfold Run.main. rewrite Hkey. cbv beta iota delta [negb].
  cbn [Extract.scrape_article]. rewrite Hload.
  change (Extract.a_url (Extract.scrape_doc (Run.arg_url a) d)) with (Run.arg_url a).
  assert (Hn : Run.history_angles history (Run.arg_url a) = None).
  { unfold Run.history_angles.
    destruct Hh as [[l [-> Hin]] | [s [-> [Hs Hc]]]].
    - destruct l as [|x l]; [destruct Hin |]. cbn [truthy List.length Nat.eqb negb].
      replace (existsb (json_eqb (JStr (Run.arg_url a))) (x :: l)) with true; [reflexivity |].
      symmetry. apply existsb_exists. exists (JStr (Run.arg_url a)).
      split; [exact Hin | apply json_eqb_str; reflexivity].
    - cbn [truthy]. destruct (String.eqb_spec s ""); [contradiction |].
      cbn [negb]. now rewrite Hc. }
  now rewrite Hn.
Qed.

Definition url_list_file : History.fs :=
  History.mkFs (History.FText ("[" ++ String Json.quote (demo_url ++ String Json.quote "]"))) true.

Lemma main_history_contains_url_crash_witness :
  History.load_history url_list_file = History.Returned (JArr [JStr demo_url]) /\
  Run.main demo_env demo_args (Some demo_doc) (Some demo_reply) url_list_file
    = Run.Crash None url_list_file.
Proof.
  assert (Hload : History.load_history url_list_file = History.Returned (JArr [JStr demo_url]))
    by (vm_compute; reflexivity).
  split; [exact Hload |].
  apply (main_history_contains_url_crash demo_env demo_args demo_doc (Some demo_reply)
           url_list_file _ eq_refl Hload).
  left. exists [JStr demo_url]. split; [reflexivity | now left].
Defined.

Lemma existsb_json_not_in (u : string) (l : list json) :
  ~ In (JStr u) l -> existsb (json_eqb (JStr u)) l = false.
Proof.
  intros Hn. destruct (existsb (json_eqb (JStr u)) l) eqn:E; [| reflexivity].
  apply existsb_exists in E as [x [Hx Hq]]. apply json_eqb_str in Hq. subst x.
  contradiction.
Qed.

(** A history file holding a JSON list without the article URL (for
    instance [[]]) does not stop generation, but when the result carries
    an angle and nests at most [Json.max_depth] levels (so [json.dumps]
    prints it), [main] prints the result and then crashes recording it
    ([history[url] = []] on a list): the webhook is never called and the
    file is kept. *)
Theorem main_list_history_record_crash (env : Env.t) (a : Run.args) (d : Extract.doc)
    (parsed : option json) (st : History.fs) (l : list json) (dres : Dict.t)
    (Hkey : Extract.str_truthy (get_api_key env) = true)
    (Hload : History.load_history st = History.Returned (JArr l))
    (Hnot : ~ In (JStr (Run.arg_url a)) l)
    (Hgen : Generate.generate_instagram_post (Extract.scrape_doc (Run.arg_url a) d) parsed
            = Some (JObj dres))
    (Hd : dres <> [])
    (Hurl : Run.arg_url a <> EmptyString)
    (Hang : truthy (Main.angle_of (Main.refine (Run.arg_url a)
                                   (Extract.scrape_doc (Run.arg_url a) d) dres)) = true)
    (Hdepth : (Json.nesting (JObj (Main.refine (Run.arg_url a)
                                    (Extract.scrape_doc (Run.arg_url a) d) dres))
               <= Json.max_depth)%nat) :
  Run.main env a (Some d) parsed st =
  Run.Crash (Some (JObj (Main.refine (Run.arg_url a) (Extract.scrape_doc (Run.arg_url a) d) dres))) st.
Proof.
  unfold Run.main. rewrite Hkey. cbv beta iota delta [negb].
  cbn [Extract.scrape_article]. rewrite Hload.
  change (Extract.a_url (Extract.scrape_doc (Run.arg_url a) d)) with (Run.arg_url a).
  assert (Hn : Run.history_angles (JArr l) (Run.arg_url a) = Some None).
  { unfold Run.history_angles. destruct (negb (truthy (JArr l))); [reflexivity |].
    now rewrite existsb_json_not_in. }
  rewrite Hn, Hgen.
  assert (Ht : truthy (JObj dres) = true) by (destruct dres; [contradiction | reflexivity]).
  rewrite Ht. cbv beta iota delta [negb].
  match goal with
  | |- context [if ?c then Run.Outside else _] =>
      replace c with false by (symmetry; now apply Nat.ltb_ge)
  end.
  unfold Main.main_tail. destruct (String.eqb_spec (Run.arg_url a) ""); [contradiction |].
  unfold Main.record_angle. rewrite Hang. reflexivity.
Qed.

Definition empty_list_file : History.fs := History.mkFs (History.FText "[]") true.

Definition demo_result : Dict.t :=
  match Generate.generate_instagram_post (Extract.scrape_doc demo_url demo_doc)
          (Some demo_reply) with
  | Some (JObj d) => d
  | _ => []
  end.

Lemma main_list_history_record_crash_witness :
  History.load_history empty_list_file = History.Returned (JArr []) /\
  exists p, Run.main demo_env demo_args (Some demo_doc) (Some demo_reply) empty_list_file
            = Run.Crash (Some p) empty_list_file.
Proof.
  assert (Hload : History.load_history empty_list_file = History.Returned (JArr []))
    by reflexivity.
  split; [exact Hload |].
  eexists.
  apply (main_list_history_record_crash demo_env demo_args demo_doc (Some demo_reply)
           empty_list_file [] demo_result eq_refl Hload (fun H => H));
    [vm_compute; reflexivity | discriminate | discriminate | vm_compute; reflexivity
    | apply Nat.leb_le; vm_compute; reflexivity].
Defined.
